(** * MIA2: the genre track downloader and its YouTube wrapper

    A shallow embedding of [src/MUSICAI2/youtube.py] (class [YouTubeAPI]) and
    [src/MUSICAI2/get_top_tracks.py] ([download_genre_tracks], [main]).

    Python integers are [Z] (unbounded, [//] is floor division, which is
    [Z.div]); dictionaries with string keys are [gmap string _]; the catalog
    loaded from [genres.json] is an association list, because [dict.items()]
    iterates in insertion order.  Printing, calls to the media source,
    exceptions and the [while] loop are modelled by a small trace-and-error
    monad [M]; the [while] loop takes a bound on its number of iterations. *)

From Stdlib Require Import ZArith Lia Ascii.
From stdpp Require Import base gmap list strings pretty.

Local Open Scope string_scope.
Local Open Scope Z_scope.
Local Open Scope list_scope.

(** ** Python values *)

(** The scalar values found in the info dictionaries of yt-dlp. *)
Inductive pyval :=
| PyNone
| PyInt (n : Z)
| PyStr (s : string).

(** A dictionary with string keys ([entry], the video records of [search]). *)
Abbreviation pydict := (gmap string pyval).

(** [d.get(key, default)] *)
Definition dict_get (d : pydict) (key : string) (dflt : pyval) : pyval :=
  match d !! key with
  | Some v => v
  | None => dflt
  end.

(** Exceptions (all of them subclasses of [Exception]). *)
Inductive exn :=
| ZeroDivisionError
| KeyError (key : string)
| TypeError
| DownloadError (msg : string)   (* raised inside yt-dlp *)
| RuntimeError (msg : string).

(** What the program writes and which calls it makes on the media source. *)
Inductive event :=
| LogGenre (count : Z) (genre : string)
    (* print(f"\nDownloading {count} tracks for genre: {genre}") *)
| LogTerm (term : string)
    (* print(f"\nSearching for: {term}") *)
| LogBatch (number current_batch : Z)
    (* print(f"\nBatch {batch + 1}: Downloading {current_batch} tracks...") *)
| LogNoMore
    (* print("No more results found") *)
| LogProgress (downloaded tracks_per_term : Z) (term : string)
    (* print(f"Downloaded {downloaded}/{tracks_per_term} tracks for term: {term}") *)
| LogSearchError (e : exn)
    (* print(f"Error searching YouTube: {e}") *)
| LogDownloadError (url : pyval) (e : exn)
    (* print(f"Error downloading {url}: {e}") *)
| CallSearch (term : string) (limit offset : Z)
    (* youtube.search(term, limit=..., offset=...) *)
| CallDownload (url : pyval) (output_dir : option string).
    (* executor.submit(youtube.download, url, output_dir=...) *)

(** ** The trace-and-error monad *)

Inductive result (A : Type) :=
| Ok (a : A)
| Raise (e : exn)
| OutOfFuel.
Arguments Ok {A} a.
Arguments Raise {A} e.
Arguments OutOfFuel {A}.

(** A computation yields the events it emitted and how it ended. *)
Definition M (A : Type) : Type := (list event * result A)%type.

Definition ret {A} (a : A) : M A := ([], Ok a).

Definition bind {A B} (m : M A) (k : A -> M B) : M B :=
  match m with
  | (t, Ok a) => let '(t', r) := k a in (t ++ t', r)
  | (t, Raise e) => (t, Raise e)
  | (t, OutOfFuel) => (t, OutOfFuel)
  end.

Definition raise {A} (e : exn) : M A := ([], Raise e).

Definition log (ev : event) : M unit := ([ev], Ok tt).

(** [try: m except Exception as e: h e] *)
Definition try_except {A} (m : M A) (h : exn -> M A) : M A :=
  match m with
  | (t, Raise e) => let '(t', r) := h e in (t ++ t', r)
  | _ => m
  end.

Declare Scope py_scope.
Delimit Scope py_scope with py.
Notation "x <- m ;; k" := (bind m (fun x => k))
  (at level 100, m at next level, right associativity) : py_scope.
Notation "m ;; k" := (bind m (fun _ => k))
  (at level 100, right associativity) : py_scope.
Local Open Scope py_scope.

(** [for x in l: body x] *)
Fixpoint for_each {A} (body : A -> M unit) (l : list A) : M unit :=
  match l with
  | [] => ret tt
  | x :: rest => body x ;; for_each body rest
  end.

Definition trace {A} (m : M A) : list event := fst m.
Definition outcome {A} (m : M A) : result A := snd m.

Definition raises {A} (m : M A) : Prop := exists e, outcome m = Raise e.

(** ** Python helpers *)

(** [a // b] *)
Definition floordiv (a b : Z) : M Z :=
  if b =? 0 then raise ZeroDivisionError else ret (a / b).

(** [l[i:]], for any integer [i]: a negative [i] counts from the end. *)
Definition slice_from {A} (l : list A) (i : Z) : list A :=
  if 0 <=? i then drop (Z.to_nat i) l
  else drop (Z.to_nat (Z.of_nat (length l) + i)) l.

(** [d[key]] *)
Definition getitem (d : pydict) (key : string) : M pyval :=
  match d !! key with
  | Some v => ret v
  | None => raise (KeyError key)
  end.

(** Truth value of an [Optional[str]]: [None] and [''] are false. *)
Definition truthy_str (o : option string) : bool :=
  match o with
  | Some s => negb (String.eqb s "")
  | None => false
  end.

(** ** yt-dlp, as the program sees it *)

(** The options dictionary handed to [yt_dlp.YoutubeDL]. *)
Record ydl_options := {
  format : string;
  postprocessors : list (gmap string string);
  outtmpl : string;
  quiet : bool;
  no_warnings : bool;
  extract_flat : bool;
  playlistend : option Z
}.

(** An element of [info['entries']]: a dictionary or [None]. *)
Definition entry := option pydict.

(** The dictionary returned by [extract_info]: its scalar keys, and the
    value of its ['entries'] key when it has one. *)
Record info_dict := {
  info_fields : pydict;
  info_entries : option (list entry)
}.

(** [extract_info] raises, or returns [None] or a dictionary. *)
Inductive ydl_outcome :=
| YdlRaise (msg : string)
| YdlReturn (info : option info_dict).

(** [if entry:] *)
Definition entry_truthy (e : entry) : bool :=
  match e with
  | Some d => negb (bool_decide (d = ∅))
  | None => false
  end.

(** [if info:] / [not results] *)
Definition info_truthy (i : option info_dict) : bool :=
  match i with
  | Some d => negb (bool_decide (info_fields d = ∅) && negb (bool_decide (is_Some (info_entries d))))
  | None => false
  end.

(** ** [youtube.py]: class [YouTubeAPI] *)

Record YouTubeAPI := {
  output_path : string;
  ydl_opts : ydl_options
}.

(** [YouTubeAPI.__init__] (creating the output directory is left out). *)
Definition YouTubeAPI_init (output_path : string) : YouTubeAPI :=
  {| output_path := output_path;
     ydl_opts :=
       {| format := "bestaudio/best";
          postprocessors :=
            [ {[ "key" := "FFmpegExtractAudio";
                 "preferredcodec" := "mp3";
                 "preferredquality" := "192" ]} ];
          outtmpl := "%(title)s.%(ext)s";
          quiet := true;
          no_warnings := true;
          extract_flat := false;
          playlistend := None |} |}.

(** Characters are 8-bit code points. *)
Definition invalid_filename_char (c : ascii) : bool :=
  bool_decide (c ∈ ["<"; ">"; ":"; "034"; "/"; "\"; "|"; "?"; "*"]%char).

(** [str.isspace] on one character. *)
Definition py_isspace (c : ascii) : bool :=
  let n := nat_of_ascii c in
  ((9 <=? n) && (n <=? 13) || (28 <=? n) && (n <=? 32) || (n =? 133) || (n =? 160))%nat.

Fixpoint remove_chars (p : ascii -> bool) (s : string) : string :=
  match s with
  | EmptyString => EmptyString
  | String c rest => if p c then remove_chars p rest else String c (remove_chars p rest)
  end.

(** [s.replace('&', 'and')] *)
Fixpoint replace_ampersand (s : string) : string :=
  match s with
  | EmptyString => EmptyString
  | String c rest =>
      if Ascii.eqb c "&" then "and" +:+ replace_ampersand rest
      else String c (replace_ampersand rest)
  end.

Fixpoint lstrip (s : string) : string :=
  match s with
  | EmptyString => EmptyString
  | String c rest => if py_isspace c then lstrip rest else s
  end.

(** [s.strip()] *)
Definition strip (s : string) : string :=
  String.rev (lstrip (String.rev (lstrip s))).

Definition clean_filename (filename : string) : string :=
  let filename := remove_chars invalid_filename_char filename in
  let filename := replace_ampersand filename in
  let filename := strip filename in
  if (200 <? String.length filename)%nat then String.substring 0 200 filename
  else filename.

(** [{**opts, 'outtmpl': t}] *)
Definition with_outtmpl (opts : ydl_options) (t : string) : ydl_options :=
  {| format := format opts; postprocessors := postprocessors opts;
     outtmpl := t;
     quiet := quiet opts; no_warnings := no_warnings opts;
     extract_flat := extract_flat opts; playlistend := playlistend opts |}.

(** The options of a search: [{**self.ydl_opts, 'extract_flat': True,
    'quiet': True, 'no_warnings': True, 'playlistend': limit + offset}]. *)
Definition search_opts (self : YouTubeAPI) (limit offset : Z) : ydl_options :=
  {| format := format (ydl_opts self);
     postprocessors := postprocessors (ydl_opts self);
     outtmpl := outtmpl (ydl_opts self);
     extract_flat := true;
     quiet := true;
     no_warnings := true;
     playlistend := Some (limit + offset) |}.

(** [f"ytsearch{limit + offset}:{query}"] *)
Definition search_url (query : string) (limit offset : Z) : string :=
  "ytsearch" +:+ pretty (limit + offset) +:+ ":" +:+ query.

(** The record [search] builds from one entry. *)
Definition video_of (e : pydict) : pydict :=
  {[ "title" := dict_get e "title" (PyStr "");
     "url" := dict_get e "url" (PyStr "");
     "duration" := dict_get e "duration" (PyInt 0);
     "id" := dict_get e "id" (PyStr "") ]}.

(** [for entry in ...: if entry: videos.append({...})] *)
Fixpoint videos_of (entries : list entry) : list pydict :=
  match entries with
  | [] => []
  | e :: rest =>
      if entry_truthy e then video_of (default ∅ e) :: videos_of rest
      else videos_of rest
  end.

(** ['entries' in results] and [results['entries']] *)
Definition has_entries (results : option info_dict) : bool :=
  match results with
  | Some r => bool_decide (is_Some (info_entries r))
  | None => false
  end.

Definition entries_of (results : option info_dict) : list entry :=
  default [] (results ≫= info_entries).

Section YouTube.

(** The outside world: [YoutubeDL(opts).extract_info(url, download=...)],
    [os.path.exists], [os.path.join] and [str(Path(a) / b)]. *)
Variable extract_info : ydl_options -> pyval -> bool -> ydl_outcome.
Variable os_path_exists : string -> bool.
Variable os_path_join : string -> string -> string.
Variable path_div : string -> string -> string.

Definition ydl_extract_info (opts : ydl_options) (url : pyval) (dl : bool)
  : M (option info_dict) :=
  match extract_info opts url dl with
  | YdlRaise msg => raise (DownloadError msg)
  | YdlReturn info => ret info
  end.

(** [YouTubeAPI.search] *)
Definition search (self : YouTubeAPI) (query : string) (limit offset : Z)
  : M (list pydict) :=
  try_except
    (results <- ydl_extract_info (search_opts self limit offset)
                  (PyStr (search_url query limit offset)) false ;;
     if negb (info_truthy results) || negb (has_entries results) then ret []
     else ret (videos_of (slice_from (entries_of results) offset)))
    (fun e => log (LogSearchError e) ;; ret []).

(** [clean_filename(info['title'])]: the key may be missing, and [re.sub]
    rejects what is not a string. *)
Definition info_title_filename (info : option info_dict) : M string :=
  title <- getitem (default ∅ (info_fields <$> info)) "title" ;;
  match title with
  | PyStr t => ret (clean_filename t)
  | _ => raise TypeError
  end.

(** [YouTubeAPI.download] *)
Definition download (self : YouTubeAPI) (url : pyval) (output_dir : option string)
  : M (option string) :=
  try_except
    (let download_opts :=
       if truthy_str output_dir
       then with_outtmpl (ydl_opts self)
              (os_path_join (default "" output_dir) "%(title)s.%(ext)s")
       else with_outtmpl (ydl_opts self)
              (path_div (output_path self) "%(title)s.%(ext)s") in
     info <- ydl_extract_info download_opts url true ;;
     if info_truthy info then
       filename <- info_title_filename info ;;
       let output_path :=
         if truthy_str output_dir
         then os_path_join (default "" output_dir) (filename +:+ ".mp3")
         else path_div (output_path self) (filename +:+ ".mp3") in
       if os_path_exists output_path then ret (Some output_path)
       else ret None
     else ret None)
    (fun e => log (LogDownloadError url e) ;; ret None).

End YouTube.

(** ** [get_top_tracks.py] *)

Definition DATASETS_DIR : string := "F:/datasets".
Definition MAX_WORKERS : Z := 4.
Definition BATCH_SIZE : Z := 50.

(** What [download_genre_tracks] uses of its [youtube] argument. *)
Record youtube_obj := {
  yt_search : string -> Z -> Z -> M (list pydict);
  yt_download : pyval -> option string -> M (option string)
}.

(** One value of the catalog: [config["search_terms"]], [config["count"]]. *)
Record genre_config := {
  search_terms : list string;
  count : Z
}.

(** A future holds how its call of [youtube.download] ended. *)
Definition future := result (option string).

(** [future.result()] *)
Definition future_result (f : future) : M (option string) := ([], f).

(** The variables of the [while] loop. *)
Record loop_state := {
  downloaded : Z;
  batch : Z
}.

Section Paginator.

Variable youtube : youtube_obj.
Variable output_dir : string.

(** [for video in results: futures.append(executor.submit(...))].  The
    output of the workers is put in submission order. *)
Fixpoint submit_all (results : list pydict) : M (list future) :=
  match results with
  | [] => ret []
  | video :: rest =>
      url <- getitem video "url" ;;
      log (CallDownload url (Some output_dir)) ;;
      let run := yt_download youtube url (Some output_dir) in
      (trace run, Ok tt) ;;
      futures <- submit_all rest ;;
      ret (outcome run :: futures)
  end.

(** [for future in futures: if future.result(): downloaded += 1] *)
Fixpoint wait_all (futures : list future) (downloaded : Z) : M Z :=
  match futures with
  | [] => ret downloaded
  | f :: rest =>
      r <- future_result f ;;
      wait_all rest (if truthy_str r then downloaded + 1 else downloaded)
  end.

(** The [with ThreadPoolExecutor(max_workers=MAX_WORKERS)] block: every
    download is submitted, then every future is waited for. *)
Definition dispatch (results : list pydict) (downloaded : Z) : M Z :=
  futures <- submit_all results ;;
  wait_all futures downloaded.

Variable term : string.
Variable tracks_per_term : Z.

Definition remaining (st : loop_state) : Z := tracks_per_term - downloaded st.
Definition current_batch (st : loop_state) : Z := Z.min BATCH_SIZE (remaining st).

(** One pass through the body of the [while] loop; [None] is [break]. *)
Definition loop_body (st : loop_state) : M (option loop_state) :=
  log (LogBatch (batch st + 1) (current_batch st)) ;;
  log (CallSearch term (current_batch st) (batch st * BATCH_SIZE)) ;;
  results <- yt_search youtube term (current_batch st) (batch st * BATCH_SIZE) ;;
  match results with
  | [] => log LogNoMore ;; ret None
  | _ =>
      d <- dispatch results (downloaded st) ;;
      log (LogProgress d tracks_per_term term) ;;
      ret (Some {| downloaded := d; batch := batch st + 1 |})
  end.

(** [while downloaded < tracks_per_term: ...], at most [fuel] passes. *)
Fixpoint while_loop (fuel : nat) (st : loop_state) : M loop_state :=
  if downloaded st <? tracks_per_term then
    match fuel with
    | O => ([], OutOfFuel)
    | S fuel' =>
        r <- loop_body st ;;
        match r with
        | None => ret st
        | Some st' => while_loop fuel' st'
        end
    end
  else ret st.

(** The body of [for term in search_terms]; it yields the final values
    of [downloaded] and [batch]. *)
Definition process_term (fuel : nat) : M loop_state :=
  log (LogTerm term) ;;
  while_loop fuel {| downloaded := 0; batch := 0 |}.

End Paginator.

Section Orchestrator.

Variable extract_info : ydl_options -> pyval -> bool -> ydl_outcome.
Variable os_path_exists : string -> bool.
Variable os_path_join : string -> string -> string.
Variable path_div : string -> string -> string.

Definition download_genre_tracks (fuel : nat) (youtube : youtube_obj)
    (genre : string) (search_terms : list string) (count : Z) : M unit :=
  let output_dir := path_div DATASETS_DIR genre in
  tracks_per_term <- floordiv count (Z.of_nat (length search_terms)) ;;
  log (LogGenre count genre) ;;
  for_each
    (fun term => process_term youtube output_dir term tracks_per_term fuel ;; ret tt)
    search_terms.

(** The object [YouTubeAPI()] as [download_genre_tracks] uses it. *)
Definition youtube_of (self : YouTubeAPI) : youtube_obj :=
  {| yt_search := search extract_info self;
     yt_download := download extract_info os_path_exists os_path_join path_div self |}.

(** The loop of [main] over the catalog. *)
Definition run_genres (fuel : nat) (youtube : youtube_obj)
    (genres : list (string * genre_config)) : M unit :=
  for_each
    (fun '(genre, config) =>
       download_genre_tracks fuel youtube genre (search_terms config) (count config))
    genres.

(** [main], on the catalog that [load_genres] returned (the directories
    of [create_genre_dirs] are left out). *)
Definition main (fuel : nat) (genres : list (string * genre_config)) : M unit :=
  let youtube := youtube_of (YouTubeAPI_init "downloads") in
  run_genres fuel youtube genres.

End Orchestrator.

(** ** Notions used in the statements *)

(** The keys of the records that [search] returns. *)
Definition video_keys : gset string := {[ "title"; "url"; "duration"; "id" ]}.

(** yt-dlp returns no more entries than [playlistend] allows. *)
Definition honours_playlistend
    (extract_info : ydl_options -> pyval -> bool -> ydl_outcome) : Prop :=
  forall opts url dl n info es,
    playlistend opts = Some n -> 0 <= n ->
    extract_info opts url dl = YdlReturn (Some info) ->
    info_entries info = Some es ->
    Z.of_nat (length es) <= n.

(** A search returns no more records than its limit. *)
Definition respects_limit (youtube : youtube_obj) : Prop :=
  forall term limit offset videos,
    0 < limit -> 0 <= offset ->
    outcome (yt_search youtube term limit offset) = Ok videos ->
    Z.of_nat (length videos) <= limit.

(** A future that holds a true value: the download returned a path. *)
Definition future_success (f : future) : bool :=
  match f with
  | Ok r => truthy_str r
  | _ => false
  end.

(** [video["url"]] does not raise. *)
Definition has_url (video : pydict) : Prop := is_Some (video !! "url").

(** The calls [youtube.search(term, limit, offset)] of a trace, in order. *)
Fixpoint search_calls (t : list event) : list (string * Z * Z) :=
  match t with
  | [] => []
  | CallSearch term limit offset :: rest => (term, limit, offset) :: search_calls rest
  | _ :: rest => search_calls rest
  end.

(** The object itself records no search call (only the loop does). *)
Definition makes_no_call (youtube : youtube_obj) : Prop :=
  (forall term limit offset,
      search_calls (trace (yt_search youtube term limit offset)) = [])
  /\ (forall url output_dir,
        search_calls (trace (yt_download youtube url output_dir)) = []).

(** The specification's reading of the offsets: the offset of each search
    call is the sum of the request sizes of the calls before it. *)
Fixpoint offsets_follow_requests (sum : Z) (calls : list (string * Z * Z)) : bool :=
  match calls with
  | [] => true
  | (_, limit, offset) :: rest =>
      (offset =? sum) && offsets_follow_requests (sum + limit) rest
  end.

Section Notions.

Variable youtube : youtube_obj.
Variable output_dir : string.

(** The future of the download submitted for one candidate. *)
Definition future_of (video : pydict) : future :=
  outcome (yt_download youtube (default PyNone (video !! "url")) (Some output_dir)).

(** The underlying fetch of a candidate succeeded. *)
Definition fetch_succeeds (video : pydict) : bool := future_success (future_of video).

(** The number of candidates of a page whose fetch succeeded. *)
Definition success_count (results : list pydict) : Z :=
  Z.of_nat (length (List.filter fetch_succeeds results)).

(** Every fetch of the page failed: each download returned [None] (or an
    empty path). *)
Definition all_fetches_fail (results : list pydict) : Prop :=
  Forall (fun video =>
            has_url video
            /\ exists r, future_of video = Ok r /\ truthy_str r = false)
         results.

Variable term : string.
Variable tracks_per_term : Z.

(** The values of the loop variables at the head of the [while] loop. *)
Inductive reachable : loop_state -> Prop :=
| reach_start : reachable {| downloaded := 0; batch := 0 |}
| reach_next st st' :
    reachable st ->
    downloaded st < tracks_per_term ->
    outcome (loop_body youtube output_dir term tracks_per_term st) = Ok (Some st') ->
    reachable st'.

End Notions.

(** ** The rest of [youtube.py] and [get_top_tracks.py] *)

(** [l[:i]], for any integer [i]: a negative [i] counts from the end. *)
Definition slice_to {A} (l : list A) (i : Z) : list A :=
  if 0 <=? i then take (Z.to_nat i) l
  else take (Z.to_nat (Z.of_nat (length l) + i)) l.

Section SearchAndDownload.

Variable extract_info : ydl_options -> pyval -> bool -> ydl_outcome.
Variable os_path_exists : string -> bool.
Variable os_path_join : string -> string -> string.
Variable path_div : string -> string -> string.

(** [for video in videos[:limit]: if file_path := self.download(video['url']):
    downloaded_files.append(file_path)] *)
Fixpoint download_each (self : YouTubeAPI) (videos : list pydict)
    (downloaded_files : list string) : M (list string) :=
  match videos with
  | [] => ret downloaded_files
  | video :: rest =>
      url <- getitem video "url" ;;
      file_path <- download extract_info os_path_exists os_path_join path_div
                     self url None ;;
      download_each self rest
        (if truthy_str file_path then downloaded_files ++ [default "" file_path]
         else downloaded_files)
  end.

(** [YouTubeAPI.search_and_download] *)
Definition search_and_download (self : YouTubeAPI) (query : string) (limit : Z)
  : M (list string) :=
  videos <- search extract_info self query limit 0 ;;
  match videos with
  | [] => ret []
  | _ => download_each self (slice_to videos limit) []
  end.

End SearchAndDownload.

(** What [download_track] writes: the lines of the object it calls, and
    its own three lines. *)
Inductive track_event :=
| FromYoutube (ev : event)
| LogNoResults (query : string)
    (* print(f"No results found for: {query}") *)
| LogDownloaded (title : pyval)
    (* print(f"Downloaded: {video['title']}") *)
| LogTrackError (query : string) (e : exn).
    (* print(f"Error downloading {query}: {e}") *)

(** The [try] block of [download_track]. *)
Definition download_track_body (youtube : youtube_obj) (query output_dir : string)
  : list track_event * result bool :=
  let searched := yt_search youtube query 1 0 in
  let t1 := map FromYoutube (trace searched) in
  match outcome searched with
  | Ok [] => (t1 ++ [LogNoResults query], Ok false)
  | Ok (video :: _) =>
      match video !! "url" with
      | None => (t1, Raise (KeyError "url"))
      | Some url =>
          let fetched := yt_download youtube url (Some output_dir) in
          let t2 := t1 ++ map FromYoutube (trace fetched) in
          match outcome fetched with
          | Ok r =>
              if truthy_str r then
                match video !! "title" with
                | Some title => (t2 ++ [LogDownloaded title], Ok true)
                | None => (t2, Raise (KeyError "title"))
                end
              else (t2, Ok false)
          | Raise e => (t2, Raise e)
          | OutOfFuel => (t2, OutOfFuel)
          end
      end
  | Raise e => (t1, Raise e)
  | OutOfFuel => (t1, OutOfFuel)
  end.

(** [download_track]: [except Exception as e: print(...); return False]. *)
Definition download_track (youtube : youtube_obj) (query output_dir : string)
  : list track_event * result bool :=
  match download_track_body youtube query output_dir with
  | (t, Raise e) => (t ++ [LogTrackError query e], Ok false)
  | other => other
  end.

(** ** More notions used in the statements *)

(** A character that [clean_filename] leaves in a name. *)
Definition kept_char (c : ascii) : bool :=
  negb (invalid_filename_char c) && negb (Ascii.eqb c "&").

Fixpoint string_all (p : ascii -> bool) (s : string) : bool :=
  match s with
  | EmptyString => true
  | String c rest => p c && string_all p rest
  end.

Definition first_char (s : string) : option ascii :=
  match s with
  | EmptyString => None
  | String c _ => Some c
  end.

Definition last_char (s : string) : option ascii := first_char (String.rev s).

(** The characters of a string, and a list without its leading spaces. *)
Definition chars (s : string) : list ascii := String.list_ascii_of_string s.

Fixpoint drop_spaces (l : list ascii) : list ascii :=
  match l with
  | [] => []
  | c :: rest => if py_isspace c then drop_spaces rest else l
  end.

(** The list is empty or starts with a character that is no space. *)
Definition head_nonspace (l : list ascii) : Prop :=
  match l with
  | [] => True
  | c :: _ => py_isspace c = false
  end.

(** The directory and file name that [download] joins. *)
Definition target_path (os_path_join path_div : string -> string -> string)
    (self : YouTubeAPI) (output_dir : option string) (name : string) : string :=
  if truthy_str output_dir then os_path_join (default "" output_dir) name
  else path_div (output_path self) name.

(** yt-dlp never returns more than [n] entries, whatever is asked. *)
Definition at_most_results
    (extract_info : ydl_options -> pyval -> bool -> ydl_outcome) (n : nat) : Prop :=
  forall opts url dl info es,
    extract_info opts url dl = YdlReturn (Some info) ->
    info_entries info = Some es ->
    (length es <= n)%nat.

(** The directories of the downloads submitted in a trace, in order. *)
Fixpoint download_dirs (t : list event) : list (option string) :=
  match t with
  | [] => []
  | CallDownload _ output_dir :: rest => output_dir :: download_dirs rest
  | _ :: rest => download_dirs rest
  end.

(** The collections started in a trace, in order. *)
Fixpoint genres_started (t : list event) : list string :=
  match t with
  | [] => []
  | LogGenre _ genre :: rest => genre :: genres_started rest
  | _ :: rest => genres_started rest
  end.

(** The options of a download: those of the object, with the output
    template in the chosen directory. *)
Definition download_opts (os_path_join path_div : string -> string -> string)
    (self : YouTubeAPI) (output_dir : option string) : ydl_options :=
  with_outtmpl (ydl_opts self)
    (target_path os_path_join path_div self output_dir "%(title)s.%(ext)s").

(** ** A small world to run the program in *)

Module Demo.

Definition track (name : string) : entry :=
  Some {[ "title" := PyStr name; "url" := PyStr ("https://y/" +:+ name);
          "id" := PyStr name; "duration" := PyInt 180 ]}.

(** Four tracks are on offer. *)
Definition catalog : list entry :=
  [ track "a"; track "b"; None; track "c"; track "d" ].

(** The query [lost] finds only [b]. *)
Definition found (url : pyval) : list entry :=
  match url with
  | PyStr "ytsearch1:lost" => [ track "b" ]
  | PyStr "ytsearch51:lost" => [ track "b" ]
  | _ => catalog
  end.

(** A search honours [playlistend]; the download of [b] fails inside
    yt-dlp, the one of [c] leaves no file. *)
Definition extract_info (opts : ydl_options) (url : pyval) (dl : bool) : ydl_outcome :=
  if dl then
    match url with
    | PyStr "https://y/b" => YdlRaise "HTTP Error 403"
    | PyStr u => YdlReturn (Some {| info_fields := {[ "title" := PyStr u ]};
                                  info_entries := None |})
    | _ => YdlRaise "not a URL"
    end
  else
    match playlistend opts with
    | Some n => YdlReturn (Some {| info_fields := {[ "_type" := PyStr "playlist" ]};
                                  info_entries := Some (take (Z.to_nat n) (found url)) |})
    | None => YdlRaise "no limit"
    end.

Definition os_path_exists (p : string) : bool :=
  negb (String.eqb p "F:/datasets/rock/httpsyc.mp3").
Definition os_path_join (a b : string) : string := a +:+ "/" +:+ b.
Definition path_div (a b : string) : string := a +:+ "/" +:+ b.

Definition youtube : youtube_obj :=
  youtube_of extract_info os_path_exists os_path_join path_div (YouTubeAPI_init "downloads").

Definition genres : list (string * genre_config) :=
  [ ("rock", {| search_terms := ["rock hits"]; count := 3 |}) ].

(** An object whose [search] raises for the term [b] and finds nothing
    for the other terms. *)
Definition broken : youtube_obj :=
  {| yt_search := fun term limit offset =>
       if String.eqb term "b" then raise (RuntimeError "connection lost") else ret [];
     yt_download := fun url output_dir => ret None |}.

End Demo.

(** ** A world whose yt-dlp ignores [playlistend] *)

Module Unbounded.

(** Every search returns the same five entries, whatever was asked;
    every download succeeds. *)
Definition extract_info (opts : ydl_options) (url : pyval) (dl : bool) : ydl_outcome :=
  if dl then
    match url with
    | PyStr u => YdlReturn (Some {| info_fields := {[ "title" := PyStr u ]};
                                  info_entries := None |})
    | _ => YdlRaise "not a URL"
    end
  else
    YdlReturn (Some {| info_fields := {[ "_type" := PyStr "playlist" ]};
                       info_entries :=
                         Some [ Demo.track "a"; Demo.track "b"; Demo.track "c";
                                Demo.track "d"; Demo.track "e" ] |}).

Definition os_path_exists (p : string) : bool := true.

Definition youtube : youtube_obj :=
  youtube_of extract_info os_path_exists Demo.os_path_join Demo.path_div
    (YouTubeAPI_init "downloads").

End Unbounded.

(** * Properties *)

(** ** The monad *)

Lemma bind_unfold {A B} (m : M A) (k : A -> M B) :
  bind m k =
    match outcome m with
    | Ok a => (trace m ++ trace (k a), outcome (k a))
    | Raise e => (trace m, Raise e)
    | OutOfFuel => (trace m, OutOfFuel)
    end.
Proof.
  destruct m as [t [a | e |]]; simpl; try reflexivity.
  destruct (k a); reflexivity.
Qed.

Lemma outcome_bind {A B} (m : M A) (k : A -> M B) a :
  outcome m = Ok a -> outcome (bind m k) = outcome (k a).
Proof. intros H. rewrite bind_unfold, H. reflexivity. Qed.

Lemma trace_bind {A B} (m : M A) (k : A -> M B) a :
  outcome m = Ok a -> trace (bind m k) = trace m ++ trace (k a).
Proof. intros H. rewrite bind_unfold, H. reflexivity. Qed.

Lemma bind_Ok_inv {A B} (m : M A) (k : A -> M B) b :
  outcome (bind m k) = Ok b ->
  exists a, outcome m = Ok a /\ outcome (k a) = Ok b.
Proof.
  rewrite bind_unfold. destruct (outcome m) as [a | e |] eqn:E; simpl; try discriminate.
  intros H. exists a. split; [reflexivity | exact H].
Qed.

(** ** [YouTubeAPI.search] *)

Section SearchFacts.

Variable extract_info : ydl_options -> pyval -> bool -> ydl_outcome.

(** What [search] returns, case by case on what yt-dlp did. *)
Lemma search_cases (self : YouTubeAPI) query limit offset :
  match extract_info (search_opts self limit offset)
          (PyStr (search_url query limit offset)) false with
  | YdlRaise msg =>
      search extract_info self query limit offset
      = ([LogSearchError (DownloadError msg)], Ok [])
  | YdlReturn None =>
      search extract_info self query limit offset = ([], Ok [])
  | YdlReturn (Some info) =>
      match info_entries info with
      | None => search extract_info self query limit offset = ([], Ok [])
      | Some es =>
          search extract_info self query limit offset
          = ([], Ok (videos_of (slice_from es offset)))
      end
  end.
Proof.
  unfold search, ydl_extract_info.
  destruct (extract_info _ _ _) as [msg | [info |]]; try reflexivity.
  destruct info as [fields [es |]]; simpl.
  - rewrite andb_false_r. reflexivity.
  - destruct (negb _); reflexivity.
Qed.

Lemma search_returns (self : YouTubeAPI) query limit offset :
  exists videos, outcome (search extract_info self query limit offset) = Ok videos.
Proof.
  pose proof (search_cases self query limit offset) as H.
  destruct (extract_info _ _ _) as [msg | [info |]];
    [ | destruct (info_entries info) | ]; rewrite H; eauto.
Qed.

End SearchFacts.

Lemma videos_of_length (es : list entry) :
  (length (videos_of es) <= length es)%nat.
Proof.
  induction es as [| e es IH]; simpl; [lia |].
  destruct (entry_truthy e); simpl; lia.
Qed.

Lemma video_of_keys (e : pydict) : dom (video_of e) = video_keys.
Proof.
  unfold video_of, video_keys. rewrite !dom_insert_L, dom_singleton_L.
  set_solver.
Qed.

Lemma videos_of_keys (es : list entry) :
  Forall (fun v : pydict => dom v = video_keys) (videos_of es).
Proof.
  induction es as [| e es IH]; simpl; [constructor |].
  destruct (entry_truthy e); [constructor; [apply video_of_keys | exact IH] | exact IH].
Qed.

Lemma video_of_url (e : pydict) : is_Some (video_of e !! "url").
Proof. apply elem_of_dom. rewrite video_of_keys. unfold video_keys. set_solver. Qed.

Lemma slice_from_nonneg {A} (l : list A) (i : Z) :
  0 <= i -> slice_from l i = drop (Z.to_nat i) l.
Proof. intros H. unfold slice_from. destruct (Z.leb_spec 0 i); [reflexivity | lia]. Qed.

Lemma demo_honours_playlistend : honours_playlistend Demo.extract_info.
Proof.
  intros opts url dl n info es Hn Hpos H Hes. unfold Demo.extract_info in H.
  destruct dl.
  - destruct url as [| |u]; try discriminate.
    destruct (decide (u = "https://y/b")) as [-> | Hne]; [discriminate |].
    assert (info = {| info_fields := {[ "title" := PyStr u ]}; info_entries := None |}) as ->.
    { revert H. repeat (case_match; try discriminate); congruence. }
    discriminate.
  - rewrite Hn in H. injection H as <-. simpl in Hes. injection Hes as <-.
    rewrite length_take. lia.
Qed.

(** C8. [YouTubeAPI.search] never propagates an error: for every query, limit
    and offset it returns a list, and when yt-dlp raises, the error is
    printed and the list is empty. *)
Theorem search_swallows_errors
    (extract_info : ydl_options -> pyval -> bool -> ydl_outcome)
    (self : YouTubeAPI) (query : string) (limit offset : Z) :
  (exists videos, outcome (search extract_info self query limit offset) = Ok videos)
  /\ (forall msg,
        extract_info (search_opts self limit offset)
          (PyStr (search_url query limit offset)) false = YdlRaise msg ->
        search extract_info self query limit offset
        = ([LogSearchError (DownloadError msg)], Ok [])).
Proof.
  split; [apply search_returns |].
  intros msg Hraise.
  pose proof (search_cases extract_info self query limit offset) as H.
  rewrite Hraise in H. exact H.
Qed.

(** The page of a search is never longer than its limit, when yt-dlp
    honours [playlistend]. *)
Lemma search_length extract_info (self : YouTubeAPI) query limit offset videos :
  honours_playlistend extract_info -> 0 <= limit -> 0 <= offset ->
  outcome (search extract_info self query limit offset) = Ok videos ->
  Z.of_nat (length videos) <= limit.
Proof.
  intros Hcap Hl Ho Hv.
  pose proof (search_cases extract_info self query limit offset) as H.
  destruct (extract_info _ _ _) as [msg | [info |]] eqn:E.
  - rewrite H in Hv. injection Hv as <-. simpl. lia.
  - destruct (info_entries info) as [es |] eqn:Ees; rewrite H in Hv; injection Hv as <-.
    + pose proof (Hcap (search_opts self limit offset) _ _ (limit + offset) info es
                    eq_refl ltac:(lia) E Ees) as Hlen.
      pose proof (videos_of_length (slice_from es offset)) as Hvl.
      rewrite slice_from_nonneg in * by lia. rewrite length_drop in Hvl. lia.
    + simpl. lia.
  - rewrite H in Hv. injection Hv as <-. simpl. lia.
Qed.

(** C10. For [limit >= 0] and [offset >= 0], [YouTubeAPI.search] returns at
    most [limit] records: the request carries [playlistend = limit + offset],
    yt-dlp returns no more entries than that, the first [offset] entries are
    skipped, and every record has exactly the keys title, url, duration, id. *)
Theorem search_page_bounded
    (extract_info : ydl_options -> pyval -> bool -> ydl_outcome)
    (self : YouTubeAPI) (query : string) (limit offset : Z) :
  honours_playlistend extract_info -> 0 <= limit -> 0 <= offset ->
  exists videos,
    outcome (search extract_info self query limit offset) = Ok videos
    /\ Z.of_nat (length videos) <= limit
    /\ playlistend (search_opts self limit offset) = Some (limit + offset)
    /\ (forall info es,
          extract_info (search_opts self limit offset)
            (PyStr (search_url query limit offset)) false = YdlReturn (Some info) ->
          info_entries info = Some es ->
          videos = videos_of (drop (Z.to_nat offset) es))
    /\ Forall (fun v : pydict => dom v = ({[ "title"; "url"; "duration"; "id" ]} : gset string)) videos.
Proof.
  intros Hcap Hl Ho.
  destruct (search_returns extract_info self query limit offset) as [videos Hv].
  exists videos. split; [exact Hv |].
  split; [eapply search_length; eauto |].
  split; [reflexivity |].
  pose proof (search_cases extract_info self query limit offset) as H.
  split.
  - intros info es E Ees. rewrite E, Ees in H. rewrite H in Hv.
    injection Hv as <-. rewrite slice_from_nonneg by lia. reflexivity.
  - destruct (extract_info _ _ _) as [msg | [info |]];
      [ | destruct (info_entries info) | ]; rewrite H in Hv; injection Hv as <-;
      try constructor.
    apply videos_of_keys.
Qed.

Lemma search_page_bounded_witness :
  honours_playlistend Demo.extract_info
  /\ exists videos,
       outcome (search Demo.extract_info (YouTubeAPI_init "downloads") "rock hits" 3 0)
       = Ok videos
       /\ Z.of_nat (length videos) <= 3
       /\ playlistend (search_opts (YouTubeAPI_init "downloads") 3 0) = Some (3 + 0)
       /\ (forall info es,
             Demo.extract_info (search_opts (YouTubeAPI_init "downloads") 3 0)
               (PyStr (search_url "rock hits" 3 0)) false = YdlReturn (Some info) ->
             info_entries info = Some es ->
             videos = videos_of (drop (Z.to_nat 0) es))
       /\ Forall (fun v : pydict => dom v = ({[ "title"; "url"; "duration"; "id" ]} : gset string)) videos.
Proof.
  split; [exact demo_honours_playlistend |].
  apply (search_page_bounded Demo.extract_info (YouTubeAPI_init "downloads") "rock hits" 3 0);
    [exact demo_honours_playlistend | lia | lia].
Defined.

(** ** [YouTubeAPI.download] *)

Lemma download_returns extract_info os_path_exists os_path_join path_div
    (self : YouTubeAPI) (url : pyval) (output_dir : option string) :
  exists r, outcome (download extract_info os_path_exists os_path_join path_div
                       self url output_dir) = Ok r.
Proof.
  unfold download, ydl_extract_info, info_title_filename, getitem.
  destruct (extract_info _ url true) as [msg | info]; simpl; [eauto |].
  destruct (info_truthy info); simpl; [| eauto].
  destruct (_ !! "title") as [[| n | t] |]; simpl; eauto.
  destruct (os_path_exists _); simpl; eauto.
Qed.

(** ** The fetch dispatcher *)

Section DispatchFacts.

Variable youtube : youtube_obj.
Variable output_dir : string.

Lemma submit_all_futures (results : list pydict) :
  Forall has_url results ->
  outcome (submit_all youtube output_dir results) = Ok (map (future_of youtube output_dir) results).
Proof.
  induction 1 as [| video rest [url Hurl] _ IH]; [reflexivity |].
  cbn [submit_all map]. unfold getitem, future_of at 1. rewrite Hurl. simpl.
  rewrite !bind_unfold. simpl. rewrite IH. reflexivity.
Qed.

Lemma submit_all_length (results : list pydict) futures :
  outcome (submit_all youtube output_dir results) = Ok futures ->
  length futures = length results.
Proof.
  revert futures. induction results as [| video rest IH]; intros futures H.
  - injection H as <-. reflexivity.
  - cbn [submit_all] in H.
    apply bind_Ok_inv in H as (url & _ & H).
    apply bind_Ok_inv in H as (? & _ & H).
    apply bind_Ok_inv in H as (? & _ & H).
    apply bind_Ok_inv in H as (fs & Hfs & H).
    injection H as <-. simpl. f_equal. apply IH. exact Hfs.
Qed.

(** The counter only grows while the futures are collected, by at most
    one per future. *)
Lemma wait_all_bounds (futures : list future) d d' :
  outcome (wait_all futures d) = Ok d' ->
  d <= d' <= d + Z.of_nat (length futures).
Proof.
  revert d. induction futures as [| f fs IH]; intros d H.
  - injection H as <-. simpl. lia.
  - cbn [wait_all] in H. destruct f as [r | e |]; try discriminate.
    rewrite bind_unfold in H. simpl in H. apply IH in H.
    cbn [length]. destruct (truthy_str r); lia.
Qed.

Lemma wait_all_count (futures : list future) d :
  Forall (fun f => exists r, f = Ok r) futures ->
  outcome (wait_all futures d)
  = Ok (d + Z.of_nat (length (List.filter future_success futures))).
Proof.
  intros H. revert d. induction H as [| f fs [r ->] _ IH]; intros d.
  - simpl. f_equal. lia.
  - cbn [wait_all List.filter future_success]. rewrite bind_unfold. simpl.
    rewrite IH. destruct (truthy_str r); cbn [length]; f_equal; lia.
Qed.

Lemma filter_map_length {A B} (f : A -> B) (p : B -> bool) (l : list A) :
  length (List.filter p (map f l)) = length (List.filter (fun x => p (f x)) l).
Proof.
  induction l as [| x l IH]; [reflexivity |].
  cbn [map List.filter]. destruct (p (f x)); simpl; rewrite IH; reflexivity.
Qed.

Lemma success_count_perm (results results' : list pydict) :
  results ≡ₚ results' ->
  success_count youtube output_dir results = success_count youtube output_dir results'.
Proof.
  unfold success_count. intros H. f_equal.
  induction H as [| x l l' _ IH | x y l | l1 l2 l3 _ IH1 _ IH2]; simpl.
  - reflexivity.
  - destruct (fetch_succeeds youtube output_dir x); simpl; rewrite IH; reflexivity.
  - destruct (fetch_succeeds youtube output_dir x), (fetch_succeeds youtube output_dir y);
    reflexivity.
  - congruence.
Qed.

(** When no download raises, the dispatcher adds the number of successes. *)
Lemma dispatch_count (results : list pydict) d :
  (forall url, exists r, outcome (yt_download youtube url (Some output_dir)) = Ok r) ->
  Forall has_url results ->
  outcome (dispatch youtube output_dir results d) = Ok (d + success_count youtube output_dir results).
Proof.
  intros Hdl Hurl. unfold dispatch.
  rewrite (outcome_bind _ _ _ (submit_all_futures results Hurl)).
  rewrite wait_all_count.
  - unfold success_count. rewrite filter_map_length. reflexivity.
  - apply Forall_forall. intros f Hf. apply list_elem_of_In, in_map_iff in Hf as (v & <- & _).
    apply Hdl.
Qed.

End DispatchFacts.

(** ** The paginator *)

Section PaginatorFacts.

Variable youtube : youtube_obj.
Variable output_dir : string.
Variable term : string.
Variable tracks_per_term : Z.

Local Abbreviation body := (loop_body youtube output_dir term tracks_per_term).
Local Abbreviation loop := (while_loop youtube output_dir term tracks_per_term).
Local Abbreviation reach := (reachable youtube output_dir term tracks_per_term).
Local Abbreviation this_search st :=
  (yt_search youtube term (current_batch tracks_per_term st) (batch st * BATCH_SIZE)).

Lemma loop_body_unfold (st : loop_state) :
  body st =
    (log (LogBatch (batch st + 1) (current_batch tracks_per_term st)) ;;
     log (CallSearch term (current_batch tracks_per_term st) (batch st * BATCH_SIZE)) ;;
     results <- this_search st ;;
     match results with
     | [] => log LogNoMore ;; ret None
     | _ =>
         d <- dispatch youtube output_dir results (downloaded st) ;;
         log (LogProgress d tracks_per_term term) ;;
         ret (Some {| downloaded := d; batch := batch st + 1 |})
     end).
Proof. reflexivity. Qed.

(** A pass that reaches the end of the body went through a page that was
    not empty and through its dispatch. *)
Lemma loop_body_continue (st st' : loop_state) :
  outcome (body st) = Ok (Some st') ->
  exists results futures,
    outcome (this_search st) = Ok results
    /\ results <> []
    /\ outcome (submit_all youtube output_dir results) = Ok futures
    /\ outcome (wait_all futures (downloaded st)) = Ok (downloaded st')
    /\ batch st' = batch st + 1.
Proof.
  rewrite loop_body_unfold. intros H.
  apply bind_Ok_inv in H as (? & _ & H).
  apply bind_Ok_inv in H as (? & _ & H).
  apply bind_Ok_inv in H as (results & Hs & H).
  destruct results as [| v rest]; [discriminate |].
  apply bind_Ok_inv in H as (d & Hd & H).
  apply bind_Ok_inv in H as (? & _ & H).
  injection H as <-.
  apply bind_Ok_inv in Hd as (futures & Hf & Hw).
  exists (v :: rest), futures. repeat split; try assumption. discriminate.
Qed.

(** An empty page is [break]. *)
Lemma loop_body_break (st : loop_state) :
  outcome (this_search st) = Ok [] ->
  body st
  = ([LogBatch (batch st + 1) (current_batch tracks_per_term st);
      CallSearch term (current_batch tracks_per_term st) (batch st * BATCH_SIZE)]
       ++ trace (this_search st) ++ [LogNoMore],
     Ok None).
Proof.
  intros H. rewrite loop_body_unfold, !bind_unfold. simpl. rewrite H. simpl.
  reflexivity.
Qed.

Lemma while_loop_done (fuel : nat) (st : loop_state) :
  tracks_per_term <= downloaded st -> loop fuel st = ret st.
Proof.
  intros H. destruct fuel; simpl; destruct (Z.ltb_spec (downloaded st) tracks_per_term);
    try lia; reflexivity.
Qed.

Lemma while_loop_step (fuel : nat) (st : loop_state) :
  downloaded st < tracks_per_term ->
  loop (S fuel) st =
    (r <- body st ;;
     match r with
     | None => ret st
     | Some st' => loop fuel st'
     end).
Proof.
  intros H. cbn [while_loop].
  destruct (Z.ltb_spec (downloaded st) tracks_per_term); [reflexivity | lia].
Qed.

(** The loop ends in a state it went through. *)
Lemma while_loop_reachable (fuel : nat) (st st' : loop_state) :
  reach st -> outcome (loop fuel st) = Ok st' -> reach st'.
Proof.
  revert st. induction fuel as [| fuel IH]; intros st Hr H.
  - destruct (Z.lt_ge_cases (downloaded st) tracks_per_term) as [Hlt | Hge].
    + simpl in H. destruct (Z.ltb_spec (downloaded st) tracks_per_term); [discriminate | lia].
    + rewrite while_loop_done in H by lia. injection H as <-. exact Hr.
  - destruct (Z.lt_ge_cases (downloaded st) tracks_per_term) as [Hlt | Hge].
    + rewrite while_loop_step in H by exact Hlt.
      apply bind_Ok_inv in H as ([st1 |] & Hb & H).
      * apply (IH st1); [| exact H]. eapply reach_next; eauto.
      * injection H as <-. exact Hr.
    + rewrite while_loop_done in H by lia. injection H as <-. exact Hr.
Qed.

Hypothesis Hlimit : respects_limit youtube.
Hypothesis Hquota : 0 <= tracks_per_term.

(** One pass keeps the counter within the quota. *)
Lemma loop_body_within_quota (st st' : loop_state) :
  0 <= batch st -> downloaded st < tracks_per_term ->
  outcome (body st) = Ok (Some st') ->
  downloaded st <= downloaded st' <= tracks_per_term /\ batch st' = batch st + 1.
Proof.
  intros Hb Hlt H.
  apply loop_body_continue in H as (results & futures & Hs & _ & Hf & Hw & Hbatch).
  apply Hlimit in Hs; [| unfold current_batch, remaining, BATCH_SIZE; lia
                        | unfold BATCH_SIZE; lia].
  apply submit_all_length in Hf. apply wait_all_bounds in Hw.
  unfold current_batch, remaining, BATCH_SIZE in Hs. lia.
Qed.

Lemma reachable_within_quota (st : loop_state) :
  reach st -> 0 <= batch st /\ 0 <= downloaded st <= tracks_per_term.
Proof.
  induction 1 as [| st st' _ [Hb Hd] Hlt Hstep]; [simpl; lia |].
  destruct (loop_body_within_quota st st' Hb Hlt Hstep). lia.
Qed.

(** While the futures of a page are collected, the counter stays within
    the quota too. *)
Lemma collecting_within_quota (st : loop_state) results futures k d :
  reach st -> downloaded st < tracks_per_term ->
  outcome (this_search st) = Ok results ->
  outcome (submit_all youtube output_dir results) = Ok futures ->
  outcome (wait_all (take k futures) (downloaded st)) = Ok d ->
  downloaded st <= d <= tracks_per_term.
Proof.
  intros Hr Hlt Hs Hf Hw.
  destruct (reachable_within_quota st Hr) as [Hb _].
  apply Hlimit in Hs; [| unfold current_batch, remaining, BATCH_SIZE; lia
                        | unfold BATCH_SIZE; lia].
  apply submit_all_length in Hf. apply wait_all_bounds in Hw.
  rewrite length_take in Hw.
  unfold current_batch, remaining, BATCH_SIZE in Hs. lia.
Qed.

End PaginatorFacts.

(** ** The paginator on [YouTubeAPI] *)

Section OnYouTubeAPI.

Variable extract_info : ydl_options -> pyval -> bool -> ydl_outcome.
Variable os_path_exists : string -> bool.
Variable os_path_join : string -> string -> string.
Variable path_div : string -> string -> string.
Variable self : YouTubeAPI.

Local Abbreviation youtube :=
  (youtube_of extract_info os_path_exists os_path_join path_div self).

Lemma youtube_respects_limit :
  honours_playlistend extract_info -> respects_limit youtube.
Proof.
  intros Hcap term limit offset videos Hl Ho H.
  apply (search_length extract_info self term limit offset videos Hcap); [lia | lia | exact H].
Qed.

Lemma youtube_download_returns (url : pyval) (output_dir : string) :
  exists r, outcome (yt_download youtube url (Some output_dir)) = Ok r.
Proof. apply download_returns. Qed.

Lemma youtube_search_has_url term limit offset videos :
  outcome (yt_search youtube term limit offset) = Ok videos -> Forall has_url videos.
Proof.
  simpl. intros Hv.
  pose proof (search_cases extract_info self term limit offset) as H.
  destruct (extract_info _ _ _) as [msg | [info |]];
    [ | destruct (info_entries info) | ]; rewrite H in Hv; injection Hv as <-;
    try constructor.
  generalize (slice_from l offset). intros es.
  induction es as [| e es IH]; simpl; [constructor |].
  destruct (entry_truthy e); [constructor; [apply video_of_url | exact IH] | exact IH].
Qed.

End OnYouTubeAPI.



(** The run of the term [rock hits] with quota 3 in the small world. *)
Example demo_run :
  process_term Demo.youtube "F:/datasets/rock" "rock hits" 3 10
  = ([ LogTerm "rock hits";
       LogBatch 1 3;
       CallSearch "rock hits" 3 0;
       CallDownload (PyStr "https://y/a") (Some "F:/datasets/rock");
       CallDownload (PyStr "https://y/b") (Some "F:/datasets/rock");
       LogDownloadError (PyStr "https://y/b") (DownloadError "HTTP Error 403");
       LogProgress 1 3 "rock hits";
       LogBatch 2 2;
       CallSearch "rock hits" 2 50;
       LogNoMore ],
     Ok {| downloaded := 1; batch := 1 |}).
Proof. vm_compute. reflexivity. Qed.


(** C7. The dispatcher adds to [downloaded] exactly the number of candidates
    of the page whose download returned a true value, and that number does
    not depend on the order of the candidates. *)
Theorem dispatch_counts_successes
    (extract_info : ydl_options -> pyval -> bool -> ydl_outcome)
    (os_path_exists : string -> bool)
    (os_path_join path_div : string -> string -> string)
    (self : YouTubeAPI) (output_dir : string)
    (results results' : list pydict) (d : Z) :
  Forall has_url results ->
  results ≡ₚ results' ->
  let youtube := youtube_of extract_info os_path_exists os_path_join path_div self in
  outcome (dispatch youtube output_dir results d)
  = Ok (d + Z.of_nat (length (List.filter (fetch_succeeds youtube output_dir) results)))
  /\ outcome (dispatch youtube output_dir results' d)
     = outcome (dispatch youtube output_dir results d).
Proof.
  intros Hurl Hperm youtube.
  assert (Forall has_url results') as Hurl'.
  { apply Forall_forall. intros v Hv. rewrite Forall_forall in Hurl.
    apply Hurl. rewrite Hperm. exact Hv. }
  pose proof (youtube_download_returns extract_info os_path_exists os_path_join
                path_div self) as Hdl.
  rewrite !dispatch_count by (try assumption; intros url; apply Hdl).
  split; [reflexivity |].
  rewrite (success_count_perm youtube output_dir results results' Hperm). reflexivity.
Qed.

Lemma dispatch_counts_successes_witness :
  Forall has_url (videos_of [Demo.track "a"; Demo.track "b"])
  /\ videos_of [Demo.track "a"; Demo.track "b"] ≡ₚ videos_of [Demo.track "b"; Demo.track "a"]
  /\ outcome (dispatch Demo.youtube "F:/datasets/rock"
                (videos_of [Demo.track "a"; Demo.track "b"]) 0)
     = Ok (0 + Z.of_nat (length (List.filter (fetch_succeeds Demo.youtube "F:/datasets/rock")
                                   (videos_of [Demo.track "a"; Demo.track "b"]))))
  /\ outcome (dispatch Demo.youtube "F:/datasets/rock"
                (videos_of [Demo.track "b"; Demo.track "a"]) 0)
     = outcome (dispatch Demo.youtube "F:/datasets/rock"
                  (videos_of [Demo.track "a"; Demo.track "b"]) 0).
Proof.
  assert (Forall has_url (videos_of [Demo.track "a"; Demo.track "b"])) as Hurl.
  { repeat constructor; apply video_of_url. }
  assert (videos_of [Demo.track "a"; Demo.track "b"]
          ≡ₚ videos_of [Demo.track "b"; Demo.track "a"]) as Hperm.
  { apply perm_swap. }
  split; [exact Hurl |]. split; [exact Hperm |].
  exact (dispatch_counts_successes Demo.extract_info Demo.os_path_exists
           Demo.os_path_join Demo.path_div (YouTubeAPI_init "downloads")
           "F:/datasets/rock" _ _ 0 Hurl Hperm).
Defined.

(** One of the two downloads of that page succeeds. *)
Example demo_dispatch :
  outcome (dispatch Demo.youtube "F:/datasets/rock"
             (videos_of [Demo.track "b"; Demo.track "a"]) 0) = Ok 1.
Proof. vm_compute. reflexivity. Qed.

(** ** Traces *)

Lemma trace_bind_l {A B} (m : M A) (k : A -> M B) ev :
  ev ∈ trace m -> ev ∈ trace (bind m k).
Proof.
  rewrite bind_unfold. destruct (outcome m); simpl; [| tauto..].
  intros H. apply elem_of_app. left. exact H.
Qed.

Lemma trace_bind_r {A B} (m : M A) (k : A -> M B) a ev :
  outcome m = Ok a -> ev ∈ trace (k a) -> ev ∈ trace (bind m k).
Proof.
  intros Ha H. rewrite (trace_bind _ _ _ Ha). apply elem_of_app. right. exact H.
Qed.

(** Every pass through the loop body calls [youtube.search] with the
    current request size and the offset [batch * BATCH_SIZE]. *)
Lemma loop_body_calls_search youtube output_dir term tracks_per_term st :
  CallSearch term (current_batch tracks_per_term st) (batch st * BATCH_SIZE)
  ∈ trace (loop_body youtube output_dir term tracks_per_term st).
Proof.
  rewrite loop_body_unfold.
  apply (trace_bind_r _ _ tt); [reflexivity |].
  apply trace_bind_l. simpl. apply list_elem_of_singleton. reflexivity.
Qed.

Lemma dispatch_all_fail youtube output_dir results d :
  all_fetches_fail youtube output_dir results ->
  outcome (dispatch youtube output_dir results d) = Ok d.
Proof.
  intros Hfail. unfold dispatch.
  assert (Forall has_url results) as Hurl.
  { eapply Forall_impl; [exact Hfail |]. intros v [H _]. exact H. }
  rewrite (outcome_bind _ _ _ (submit_all_futures youtube output_dir results Hurl)).
  clear Hurl. revert d. induction Hfail as [| v rest (_ & r & Hr & Hf) _ IH]; intros d.
  - reflexivity.
  - cbn [map wait_all]. rewrite Hr. rewrite bind_unfold. simpl. rewrite Hf. apply IH.
Qed.

(** C3. While [downloaded < tracks_per_term]: a pass through the loop body
    is a [break] exactly when the search returned an empty list; after an
    empty page the loop ends at once, the search just made being the last
    event before "No more results found" (so an empty first page leaves
    [downloaded = 0]); after a page that is not empty and whose downloads
    all failed, the loop goes on and searches again at the next offset. *)
Theorem empty_page_ends_term
    (youtube : youtube_obj) (output_dir term : string) (tracks_per_term : Z) :
  (forall st results,
      downloaded st < tracks_per_term ->
      outcome (yt_search youtube term (current_batch tracks_per_term st)
                 (batch st * BATCH_SIZE)) = Ok results ->
      (outcome (loop_body youtube output_dir term tracks_per_term st) = Ok None
       <-> results = []))
  /\ (forall st fuel,
        downloaded st < tracks_per_term ->
        outcome (yt_search youtube term (current_batch tracks_per_term st)
                   (batch st * BATCH_SIZE)) = Ok [] ->
        while_loop youtube output_dir term tracks_per_term (S fuel) st
        = ([ LogBatch (batch st + 1) (current_batch tracks_per_term st);
             CallSearch term (current_batch tracks_per_term st) (batch st * BATCH_SIZE) ]
             ++ trace (yt_search youtube term (current_batch tracks_per_term st)
                         (batch st * BATCH_SIZE))
             ++ [ LogNoMore ],
           Ok st))
  /\ (forall fuel,
        0 < tracks_per_term ->
        outcome (yt_search youtube term (Z.min BATCH_SIZE tracks_per_term) 0) = Ok [] ->
        outcome (process_term youtube output_dir term tracks_per_term (S fuel))
        = Ok {| downloaded := 0; batch := 0 |})
  /\ (forall st fuel results,
        downloaded st < tracks_per_term ->
        outcome (yt_search youtube term (current_batch tracks_per_term st)
                   (batch st * BATCH_SIZE)) = Ok results ->
        results <> [] ->
        all_fetches_fail youtube output_dir results ->
        outcome (loop_body youtube output_dir term tracks_per_term st)
        = Ok (Some {| downloaded := downloaded st; batch := batch st + 1 |})
        /\ CallSearch term (current_batch tracks_per_term st)
             ((batch st + 1) * BATCH_SIZE)
           ∈ trace (while_loop youtube output_dir term tracks_per_term (S (S fuel)) st)).
Proof.
  assert (forall st fuel,
            downloaded st < tracks_per_term ->
            outcome (yt_search youtube term (current_batch tracks_per_term st)
                       (batch st * BATCH_SIZE)) = Ok [] ->
            while_loop youtube output_dir term tracks_per_term (S fuel) st
            = ([ LogBatch (batch st + 1) (current_batch tracks_per_term st);
                 CallSearch term (current_batch tracks_per_term st) (batch st * BATCH_SIZE) ]
                 ++ trace (yt_search youtube term (current_batch tracks_per_term st)
                             (batch st * BATCH_SIZE))
                 ++ [ LogNoMore ],
               Ok st)) as Hempty.
  { intros st fuel Hlt Hs.
    rewrite while_loop_step by exact Hlt.
    rewrite (loop_body_break _ _ _ _ _ Hs). simpl. rewrite app_nil_r. reflexivity. }
  assert (forall st results d,
            outcome (yt_search youtube term (current_batch tracks_per_term st)
                       (batch st * BATCH_SIZE)) = Ok results ->
            results <> [] ->
            outcome (dispatch youtube output_dir results (downloaded st)) = Ok d ->
            outcome (loop_body youtube output_dir term tracks_per_term st)
            = Ok (Some {| downloaded := d; batch := batch st + 1 |})) as Hgo.
  { intros st results d Hs Hne Hd. rewrite loop_body_unfold.
    rewrite (outcome_bind _ _ tt) by reflexivity.
    rewrite (outcome_bind _ _ tt) by reflexivity.
    rewrite (outcome_bind _ _ _ Hs).
    destruct results as [| v rest]; [congruence |].
    rewrite (outcome_bind _ _ _ Hd). reflexivity. }
  split; [| split; [| split]].
  - intros st results Hlt Hs. split.
    + intros Hb. destruct results as [| v rest]; [reflexivity |].
      rewrite loop_body_unfold in Hb.
      apply bind_Ok_inv in Hb as (? & _ & Hb).
      apply bind_Ok_inv in Hb as (? & _ & Hb).
      apply bind_Ok_inv in Hb as (rs & Hrs & Hb).
      rewrite Hs in Hrs. injection Hrs as <-.
      apply bind_Ok_inv in Hb as (? & _ & Hb).
      apply bind_Ok_inv in Hb as (? & _ & Hb). discriminate.
    + intros ->. rewrite (loop_body_break _ _ _ _ _ Hs). reflexivity.
  - exact Hempty.
  - intros fuel Hq Hs. unfold process_term.
    rewrite (outcome_bind _ _ tt) by reflexivity.
    rewrite Hempty; [reflexivity | simpl; lia |].
    unfold current_batch, remaining. simpl downloaded. simpl batch.
    rewrite Z.sub_0_r. exact Hs.
  - intros st fuel results Hlt Hs Hne Hfail.
    pose proof (Hgo st results (downloaded st) Hs Hne
                  (dispatch_all_fail _ _ _ _ Hfail)) as Hbody.
    split; [exact Hbody |].
    rewrite while_loop_step by exact Hlt.
    eapply trace_bind_r; [exact Hbody |]. cbv beta iota.
    rewrite while_loop_step by (simpl; exact Hlt).
    apply trace_bind_l.
    apply (loop_body_calls_search youtube output_dir term tracks_per_term
             {| downloaded := downloaded st; batch := batch st + 1 |}).
Qed.

(** ** The search calls of a run *)

Lemma search_calls_app (t1 t2 : list event) :
  search_calls (t1 ++ t2) = search_calls t1 ++ search_calls t2.
Proof.
  induction t1 as [| ev t1 IH]; [reflexivity |].
  destruct ev; simpl; rewrite IH; reflexivity.
Qed.

Lemma search_calls_bind {A B} (m : M A) (k : A -> M B) :
  search_calls (trace (bind m k))
  = search_calls (trace m)
      ++ match outcome m with
         | Ok a => search_calls (trace (k a))
         | _ => []
         end.
Proof.
  rewrite bind_unfold. destruct (outcome m); simpl.
  - apply search_calls_app.
  - rewrite app_nil_r. reflexivity.
  - rewrite app_nil_r. reflexivity.
Qed.

Lemma outcome_ret {A} (a : A) : outcome (ret a) = Ok a.
Proof. reflexivity. Qed.

Lemma trace_ret {A} (a : A) : trace (ret a) = [].
Proof. reflexivity. Qed.

Lemma outcome_log ev : outcome (log ev) = Ok tt.
Proof. reflexivity. Qed.

Lemma trace_log ev : trace (log ev) = [ev].
Proof. reflexivity. Qed.

Lemma outcome_pair {A} (t : list event) (r : result A) : outcome (t, r) = r.
Proof. reflexivity. Qed.

Lemma trace_pair {A} (t : list event) (r : result A) : trace (t, r) = t.
Proof. reflexivity. Qed.

(** Splits the search calls of a sequence of statements. *)
Ltac split_calls :=
  repeat first
    [ rewrite search_calls_bind
    | rewrite outcome_ret | rewrite trace_ret
    | rewrite outcome_log | rewrite trace_log
    | rewrite outcome_pair | rewrite trace_pair
    | progress cbn [search_calls app] ].

Lemma wait_all_trace (futures : list future) d :
  trace (wait_all futures d) = [].
Proof.
  revert d. induction futures as [| f fs IH]; intros d; [reflexivity |].
  cbn [wait_all]. rewrite bind_unfold. destruct f; simpl; [apply IH | reflexivity..].
Qed.

Section SearchCalls.

Variable youtube : youtube_obj.
Variable output_dir : string.
Variable term : string.
Variable tracks_per_term : Z.
Hypothesis Hquiet : makes_no_call youtube.

Lemma submit_all_search_calls (results : list pydict) :
  search_calls (trace (submit_all youtube output_dir results)) = [].
Proof.
  induction results as [| video rest IH]; [reflexivity |].
  cbn [submit_all]. rewrite search_calls_bind.
  unfold getitem. destruct (video !! "url") as [url |]; [| reflexivity].
  split_calls.
  destruct Hquiet as [_ Hd]. rewrite (Hd url (Some output_dir)), IH.
  destruct (outcome (submit_all youtube output_dir rest)); reflexivity.
Qed.

Lemma dispatch_search_calls (results : list pydict) d :
  search_calls (trace (dispatch youtube output_dir results d)) = [].
Proof.
  unfold dispatch. rewrite search_calls_bind, submit_all_search_calls.
  destruct (outcome (submit_all youtube output_dir results)); try reflexivity.
  rewrite wait_all_trace. reflexivity.
Qed.

(** One pass through the loop body makes one search call. *)
Lemma loop_body_search_calls (st : loop_state) :
  search_calls (trace (loop_body youtube output_dir term tracks_per_term st))
  = [(term, current_batch tracks_per_term st, batch st * BATCH_SIZE)].
Proof.
  rewrite loop_body_unfold. split_calls.
  destruct Hquiet as [Hs _]. rewrite Hs. cbn [app].
  destruct (outcome (yt_search youtube term _ _)) as [[| v rest] | e |]; try reflexivity.
  split_calls. rewrite dispatch_search_calls.
  destruct (outcome (dispatch youtube output_dir (v :: rest) (downloaded st)));
    reflexivity.
Qed.

(** The [n]-th search call of the loop started in [st] is for the same term,
    at offset [(batch st + n) * BATCH_SIZE]. *)
Lemma while_loop_search_calls (fuel : nat) (st : loop_state) (n : nat) term' limit offset :
  search_calls (trace (while_loop youtube output_dir term tracks_per_term fuel st)) !! n
  = Some (term', limit, offset) ->
  term' = term /\ offset = (batch st + Z.of_nat n) * BATCH_SIZE.
Proof.
  revert st n. induction fuel as [| fuel IH]; intros st n H.
  - simpl in H. destruct (downloaded st <? tracks_per_term); discriminate.
  - destruct (Z.lt_ge_cases (downloaded st) tracks_per_term) as [Hlt | Hge].
    + rewrite while_loop_step in H by exact Hlt.
      rewrite search_calls_bind, loop_body_search_calls in H.
      destruct n as [| n].
      * simpl in H. injection H as <- _ <-. split; [reflexivity | lia].
      * simpl in H.
        destruct (outcome (loop_body youtube output_dir term tracks_per_term st))
          as [[st' |] | e |] eqn:Hb; try discriminate.
        apply IH in H as [-> ->].
        apply loop_body_continue in Hb as (_ & _ & _ & _ & _ & _ & Hbatch).
        split; [reflexivity | lia].
    + rewrite while_loop_done in H by lia. discriminate.
Qed.

End SearchCalls.

Lemma youtube_makes_no_call extract_info os_path_exists os_path_join path_div self :
  makes_no_call (youtube_of extract_info os_path_exists os_path_join path_div self).
Proof.
  split; simpl.
  - intros term limit offset.
    pose proof (search_cases extract_info self term limit offset) as H.
    destruct (extract_info _ _ _) as [msg | [info |]];
      [ | destruct (info_entries info) | ]; rewrite H; reflexivity.
  - intros url output_dir.
    unfold download, ydl_extract_info, info_title_filename, getitem.
    destruct (extract_info _ url true) as [msg | info]; simpl; [reflexivity |].
    destruct (info_truthy info); simpl; [| reflexivity].
    destruct (_ !! "title") as [[| n | t] |]; simpl; try reflexivity.
    destruct (os_path_exists _); reflexivity.
Qed.

(** C4, as stated, fails: with quota 3 the first page is requested with size
    3 at offset 0; one of its two downloads fails, and the second page is
    requested at offset 50, not 3. *)
Lemma offset_is_not_sum_of_request_sizes :
  search_calls (trace (process_term Demo.youtube "F:/datasets/rock" "rock hits" 3 10))
  = [ ("rock hits", 3, 0); ("rock hits", 2, 50) ]
  /\ offsets_follow_requests 0
       (search_calls (trace (process_term Demo.youtube "F:/datasets/rock" "rock hits" 3 10)))
     = false.
Proof. split; vm_compute; reflexivity. Qed.

(** C4, amended. The offset of a search advances by [BATCH_SIZE] from one
    page to the next, whatever the request size of the page and the number
    of downloads that succeeded: the [n]-th search call of a term (counting
    from 0) is for that term at offset [n * BATCH_SIZE]. *)
Theorem search_offset_is_batch_times_size
    (extract_info : ydl_options -> pyval -> bool -> ydl_outcome)
    (os_path_exists : string -> bool)
    (os_path_join path_div : string -> string -> string)
    (self : YouTubeAPI) (output_dir term : string) (tracks_per_term : Z)
    (fuel n : nat) (term' : string) (limit offset : Z) :
  let youtube := youtube_of extract_info os_path_exists os_path_join path_div self in
  search_calls (trace (process_term youtube output_dir term tracks_per_term fuel)) !! n
  = Some (term', limit, offset) ->
  term' = term /\ offset = Z.of_nat n * BATCH_SIZE.
Proof.
  intros youtube H. unfold process_term in H.
  rewrite search_calls_bind in H. simpl in H.
  apply (while_loop_search_calls youtube output_dir term tracks_per_term
           (youtube_makes_no_call _ _ _ _ _)) in H.
  simpl in H. exact H.
Qed.

Lemma search_offset_is_batch_times_size_witness :
  search_calls (trace (process_term Demo.youtube "F:/datasets/rock" "rock hits" 3 10)) !! 1%nat
  = Some ("rock hits", 2, 50)
  /\ "rock hits" = "rock hits" /\ 50 = Z.of_nat 1 * BATCH_SIZE.
Proof.
  assert (search_calls
            (trace (process_term Demo.youtube "F:/datasets/rock" "rock hits" 3 10)) !! 1%nat
          = Some ("rock hits", 2, 50)) as H by (vm_compute; reflexivity).
  split; [exact H |].
  exact (search_offset_is_batch_times_size Demo.extract_info Demo.os_path_exists
           Demo.os_path_join Demo.path_div (YouTubeAPI_init "downloads")
           "F:/datasets/rock" "rock hits" 3 10 1 "rock hits" 2 50 H).
Defined.

(** ** The orchestrator *)

Lemma for_each_app {A} (body : A -> M unit) (l1 l2 : list A) :
  for_each body (l1 ++ l2) = (for_each body l1 ;; for_each body l2).
Proof.
  induction l1 as [| x l1 IH]; simpl.
  - destruct (for_each body l2); reflexivity.
  - rewrite IH. destruct (body x) as [t [[] | e |]]; simpl; try reflexivity.
    destruct (for_each body l1) as [t1 [[] | e1 |]]; simpl;
      try (rewrite ?app_nil_r; reflexivity).
    destruct (for_each body l2) as [t2 r2]. rewrite app_assoc. reflexivity.
Qed.

Lemma floordiv_raises (a b : Z) : raises (floordiv a b) <-> b = 0.
Proof.
  unfold floordiv, raises. destruct (Z.eqb_spec b 0) as [-> | Hne]; simpl.
  - split; [reflexivity | eauto].
  - split; [intros [e He]; discriminate | contradiction].
Qed.

Lemma floordiv_nonzero (a b : Z) : b <> 0 -> floordiv a b = ret (a / b).
Proof. intros H. unfold floordiv. destruct (Z.eqb_spec b 0); [contradiction | reflexivity]. Qed.

Lemma length_nonzero {A} (l : list A) : l <> [] -> Z.of_nat (length l) <> 0.
Proof. destruct l; [congruence | simpl; lia]. Qed.

(** C2. For a target that is not negative and at least one search term, the
    quota of a term is [count // len(search_terms)], the floor of the
    quotient; the same quota is the bound of the loop of every term of the
    collection, so [termCount * quota <= count] and the remainder is lost;
    100 tracks over 3 terms give 33 each. *)
Theorem quota_is_floor_division
    (path_div : string -> string -> string) (fuel : nat) (youtube : youtube_obj)
    (genre : string) (search_terms : list string) (count : Z) :
  0 <= count ->
  search_terms <> [] ->
  let termCount := Z.of_nat (length search_terms) in
  let quotaPerTerm := count / termCount in
  floordiv count termCount = ret quotaPerTerm
  /\ termCount * quotaPerTerm <= count < termCount * (quotaPerTerm + 1)
  /\ download_genre_tracks path_div fuel youtube genre search_terms count
     = (log (LogGenre count genre) ;;
        for_each
          (fun term =>
             process_term youtube (path_div DATASETS_DIR genre) term quotaPerTerm fuel ;;
             ret tt)
          search_terms)
  /\ floordiv 100 (Z.of_nat (length ["a"; "b"; "c"])) = ret 33.
Proof.
  intros Hcount Hterms termCount quotaPerTerm.
  assert (0 < termCount) as Hpos.
  { pose proof (length_nonzero search_terms Hterms). unfold termCount. lia. }
  assert (floordiv count termCount = ret quotaPerTerm) as Hdiv.
  { apply floordiv_nonzero. lia. }
  split; [exact Hdiv |]. split; [| split].
  - unfold quotaPerTerm.
    pose proof (Z.mul_div_le count termCount Hpos).
    pose proof (Z.mul_succ_div_gt count termCount Hpos). lia.
  - unfold download_genre_tracks. fold termCount. rewrite Hdiv. simpl.
    destruct (for_each _ search_terms). reflexivity.
  - reflexivity.
Qed.

Lemma quota_is_floor_division_witness :
  0 <= 100
  /\ ["a"; "b"; "c"] <> []
  /\ floordiv 100 (Z.of_nat (length ["a"; "b"; "c"])) = ret (100 / 3)
  /\ 3 * (100 / 3) <= 100 < 3 * (100 / 3 + 1).
Proof.
  split; [lia |]. split; [discriminate |].
  pose proof (quota_is_floor_division Demo.path_div 10 Demo.youtube "rock"
                ["a"; "b"; "c"] 100 ltac:(lia) ltac:(discriminate)) as (H1 & H2 & _).
  split; [exact H1 | exact H2].
Defined.

(** C6, as stated, fails: with no search term the quota computation raises
    for the target 0 too, and the error ends the run: the collection after
    the one without terms is never started. *)
Lemma no_terms_fails_for_target_zero :
  floordiv 0 (Z.of_nat (length ([] : list string))) = raise ZeroDivisionError
  /\ main Demo.extract_info Demo.os_path_exists Demo.os_path_join Demo.path_div 10
       [ ("silence", {| search_terms := []; count := 0 |});
         ("rock", {| search_terms := ["rock hits"]; count := 3 |}) ]
     = ([], Raise ZeroDivisionError)
  /\ fst (main Demo.extract_info Demo.os_path_exists Demo.os_path_join Demo.path_div 10
            [ ("rock", {| search_terms := ["rock hits"]; count := 3 |}) ])
     <> [].
Proof. repeat split; vm_compute; congruence. Qed.

(** C6, amended. The quota computation fails, with [ZeroDivisionError], if
    and only if the collection has no search term, whatever its target;
    nothing catches the error: [download_genre_tracks] raises it before it
    prints anything, and the loop of [main] stops there, after the
    collections that came before and without starting those that follow. *)
Theorem quota_fails_iff_no_terms
    (path_div : string -> string -> string) (fuel : nat) (youtube : youtube_obj) :
  (forall (count : Z) (search_terms : list string),
      raises (floordiv count (Z.of_nat (length search_terms))) <-> search_terms = [])
  /\ (forall genre count,
        download_genre_tracks path_div fuel youtube genre [] count
        = ([], Raise ZeroDivisionError))
  /\ (forall before genre count after t,
        run_genres path_div fuel youtube before = (t, Ok tt) ->
        run_genres path_div fuel youtube
          (before ++ (genre, {| search_terms := []; count := count |}) :: after)
        = (t, Raise ZeroDivisionError)).
Proof.
  split; [| split].
  - intros count search_terms. rewrite floordiv_raises.
    destruct search_terms; simpl; split; intros H; try reflexivity; try discriminate; lia.
  - reflexivity.
  - intros before genre count after t H. unfold run_genres in *.
    rewrite for_each_app, H. simpl. rewrite app_nil_r. reflexivity.
Qed.

Lemma bind_no_raise {A B} (m : M A) (k : A -> M B) :
  ~ raises m ->
  (forall a, outcome m = Ok a -> ~ raises (k a)) ->
  ~ raises (bind m k).
Proof.
  intros Hm Hk [e He]. rewrite bind_unfold in He.
  destruct (outcome m) as [a | e' |] eqn:E; simpl in He.
  - apply (Hk a eq_refl). exists e. exact He.
  - apply Hm. exists e'. exact E.
  - discriminate.
Qed.

Lemma for_each_no_raise {A} (body : A -> M unit) (l : list A) :
  Forall (fun x => ~ raises (body x)) l -> ~ raises (for_each body l).
Proof.
  induction 1 as [| x l Hx _ IH]; simpl.
  - intros [e He]. discriminate.
  - apply bind_no_raise; [exact Hx | intros _ _; exact IH].
Qed.

Lemma returns_no_raise {A} (m : M A) a : outcome m = Ok a -> ~ raises m.
Proof. intros H [e He]. congruence. Qed.

Section NoRaise.

Variable extract_info : ydl_options -> pyval -> bool -> ydl_outcome.
Variable os_path_exists : string -> bool.
Variable os_path_join : string -> string -> string.
Variable path_div : string -> string -> string.
Variable self : YouTubeAPI.

Local Abbreviation youtube :=
  (youtube_of extract_info os_path_exists os_path_join path_div self).

(** On [YouTubeAPI], a pass through the loop body always comes to its end
    or to its [break]. *)
Lemma youtube_loop_body_returns output_dir term tracks_per_term st :
  exists r, outcome (loop_body youtube output_dir term tracks_per_term st) = Ok r.
Proof.
  rewrite loop_body_unfold.
  rewrite (outcome_bind _ _ tt) by reflexivity.
  rewrite (outcome_bind _ _ tt) by reflexivity.
  destruct (search_returns extract_info self term (current_batch tracks_per_term st)
              (batch st * BATCH_SIZE)) as [results Hs].
  rewrite (outcome_bind _ _ results) by exact Hs.
  destruct results as [| v rest]; [exists None; reflexivity |].
  assert (outcome (dispatch youtube output_dir (v :: rest) (downloaded st))
          = Ok (downloaded st + success_count youtube output_dir (v :: rest))) as Hd.
  { apply dispatch_count.
    - intros url. apply download_returns.
    - apply (youtube_search_has_url extract_info os_path_exists os_path_join path_div
               self term _ _ _ Hs). }
  rewrite (outcome_bind _ _ _ Hd). eexists. reflexivity.
Qed.

Lemma youtube_while_loop_no_raise output_dir term tracks_per_term fuel st :
  ~ raises (while_loop youtube output_dir term tracks_per_term fuel st).
Proof.
  revert st. induction fuel as [| fuel IH]; intros st.
  - simpl. destruct (downloaded st <? tracks_per_term); intros [e He]; discriminate.
  - destruct (Z.lt_ge_cases (downloaded st) tracks_per_term) as [Hlt | Hge].
    + rewrite while_loop_step by exact Hlt.
      apply bind_no_raise.
      * destruct (youtube_loop_body_returns output_dir term tracks_per_term st) as [r Hr].
        eapply returns_no_raise. exact Hr.
      * intros [st' |] _; [apply IH | intros [e He]; discriminate].
    + rewrite while_loop_done by lia. intros [e He]. discriminate.
Qed.

Lemma youtube_genre_no_raise fuel genre (search_terms : list string) count :
  search_terms <> [] ->
  ~ raises (download_genre_tracks path_div fuel youtube genre search_terms count).
Proof.
  intros Hterms. unfold download_genre_tracks.
  rewrite floordiv_nonzero by (apply length_nonzero; exact Hterms).
  apply bind_no_raise; [intros [e He]; discriminate |].
  intros q _. apply bind_no_raise; [intros [e He]; discriminate |].
  intros _ _. apply for_each_no_raise. apply Forall_forall. intros term _.
  apply bind_no_raise; [| intros ? _ [e He]; discriminate].
  unfold process_term. apply bind_no_raise; [intros [e He]; discriminate |].
  intros _ _. apply youtube_while_loop_no_raise.
Qed.

End NoRaise.



(** ** The statements at work in the small world *)

(** The term [lost] with quota 1: the only record of the first page fails to
    download, and the loop searches again, at offset 50. *)
Lemma empty_page_ends_term_witness :
  outcome (yt_search Demo.youtube "lost" 1 0) = Ok (videos_of [Demo.track "b"])
  /\ all_fetches_fail Demo.youtube "F:/datasets/lost" (videos_of [Demo.track "b"])
  /\ outcome (loop_body Demo.youtube "F:/datasets/lost" "lost" 1
                {| downloaded := 0; batch := 0 |})
     = Ok (Some {| downloaded := 0; batch := 1 |})
  /\ CallSearch "lost" 1 50
     ∈ trace (while_loop Demo.youtube "F:/datasets/lost" "lost" 1 2
                {| downloaded := 0; batch := 0 |}).
Proof.
  assert (outcome (yt_search Demo.youtube "lost" 1 0) = Ok (videos_of [Demo.track "b"]))
    as Hs by (vm_compute; reflexivity).
  assert (all_fetches_fail Demo.youtube "F:/datasets/lost" (videos_of [Demo.track "b"]))
    as Hfail.
  { repeat constructor; [apply video_of_url |].
    exists None. split; vm_compute; reflexivity. }
  split; [exact Hs |]. split; [exact Hfail |].
  exact (proj2 (proj2 (proj2
           (empty_page_ends_term Demo.youtube "F:/datasets/lost" "lost" 1)))
           {| downloaded := 0; batch := 0 |} 0%nat (videos_of [Demo.track "b"])
           ltac:(simpl; lia) Hs ltac:(vm_compute; discriminate) Hfail).
Defined.

(** The whole run of the term [lost]: one failed download, then an empty
    page. *)
Example demo_lost :
  process_term Demo.youtube "F:/datasets/lost" "lost" 1 10
  = ([ LogTerm "lost";
       LogBatch 1 1;
       CallSearch "lost" 1 0;
       CallDownload (PyStr "https://y/b") (Some "F:/datasets/lost");
       LogDownloadError (PyStr "https://y/b") (DownloadError "HTTP Error 403");
       LogProgress 0 1 "lost";
       LogBatch 2 1;
       CallSearch "lost" 1 50;
       LogNoMore ],
     Ok {| downloaded := 0; batch := 1 |}).
Proof. vm_compute. reflexivity. Qed.

Lemma quota_fails_iff_no_terms_witness :
  run_genres Demo.path_div 10 Demo.youtube Demo.genres
  = (trace (run_genres Demo.path_div 10 Demo.youtube Demo.genres), Ok tt)
  /\ run_genres Demo.path_div 10 Demo.youtube
       (Demo.genres ++ ("silence", {| search_terms := []; count := 7 |})
                    :: [("jazz", {| search_terms := ["jazz"]; count := 2 |})])
     = (trace (run_genres Demo.path_div 10 Demo.youtube Demo.genres),
        Raise ZeroDivisionError).
Proof.
  assert (run_genres Demo.path_div 10 Demo.youtube Demo.genres
          = (trace (run_genres Demo.path_div 10 Demo.youtube Demo.genres), Ok tt))
    as H by (vm_compute; reflexivity).
  split; [exact H |].
  exact (proj2 (proj2 (quota_fails_iff_no_terms Demo.path_div 10 Demo.youtube))
           Demo.genres "silence" 7 [("jazz", {| search_terms := ["jazz"]; count := 2 |})]
           _ H).
Defined.


(** ** [clean_filename] *)

Lemma string_all_app p (s1 s2 : string) :
  string_all p (s1 +:+ s2) = string_all p s1 && string_all p s2.
Proof.
  induction s1 as [| c s1 IH]; simpl; [reflexivity |].
  rewrite IH, andb_assoc. reflexivity.
Qed.

Lemma string_all_rev_app p (s1 s2 : string) :
  string_all p (String.rev_app s1 s2) = string_all p s1 && string_all p s2.
Proof.
  revert s2. induction s1 as [| c s1 IH]; intros s2; simpl; [reflexivity |].
  rewrite IH. simpl. destruct (p c), (string_all p s1); reflexivity.
Qed.

Lemma string_all_rev p (s : string) : string_all p (String.rev s) = string_all p s.
Proof. unfold String.rev. rewrite string_all_rev_app. simpl. apply andb_true_r. Qed.

Lemma string_all_lstrip p (s : string) :
  string_all p s = true -> string_all p (lstrip s) = true.
Proof.
  induction s as [| c s IH]; simpl; [reflexivity |].
  intros H. apply andb_true_iff in H as [Hc Hs].
  destruct (py_isspace c); [apply IH; exact Hs |]. simpl. rewrite Hc, Hs. reflexivity.
Qed.

Lemma string_all_substring p (s : string) (n m : nat) :
  string_all p s = true -> string_all p (String.substring n m s) = true.
Proof.
  revert n m. induction s as [| c s IH]; intros n m H.
  - destruct n, m; reflexivity.
  - simpl in H. apply andb_true_iff in H as [Hc Hs].
    destruct n as [| n]; [destruct m as [| m] |]; simpl.
    + reflexivity.
    + rewrite Hc. apply IH. exact Hs.
    + apply IH. exact Hs.
Qed.

Lemma string_all_remove_chars (s : string) :
  string_all (fun c => negb (invalid_filename_char c))
    (remove_chars invalid_filename_char s) = true.
Proof.
  induction s as [| c s IH]; simpl; [reflexivity |].
  destruct (invalid_filename_char c) eqn:E; [exact IH |].
  simpl. rewrite E, IH. reflexivity.
Qed.

Lemma string_all_replace_ampersand (s : string) :
  string_all (fun c => negb (invalid_filename_char c)) s = true ->
  string_all kept_char (replace_ampersand s) = true.
Proof.
  induction s as [| c s IH]; simpl; [reflexivity |].
  intros H. apply andb_true_iff in H as [Hc Hs].
  destruct (Ascii.eqb c "&") eqn:E.
  - rewrite string_all_app, (IH Hs). reflexivity.
  - simpl. unfold kept_char at 1. rewrite Hc, E, (IH Hs). reflexivity.
Qed.

Lemma string_all_strip p (s : string) :
  string_all p s = true -> string_all p (strip s) = true.
Proof.
  intros H. unfold strip. rewrite string_all_rev. apply string_all_lstrip.
  rewrite string_all_rev. apply string_all_lstrip. exact H.
Qed.

Lemma clean_filename_kept (filename : string) :
  string_all kept_char (clean_filename filename) = true.
Proof.
  unfold clean_filename.
  pose proof (string_all_strip kept_char _
                (string_all_replace_ampersand _ (string_all_remove_chars filename))) as H.
  destruct (_ <? _)%nat; [apply string_all_substring |]; exact H.
Qed.

(** X1. No name that [clean_filename] returns contains one of the nine
    characters of [invalid_filename_char] (angle brackets, colon, double
    quote, slash, backslash, bar, question mark, star) or an ampersand. *)
Theorem clean_filename_only_kept_chars (filename : string) :
  string_all kept_char (clean_filename filename) = true
  /\ (forall c, c ∈ chars (clean_filename filename) ->
        invalid_filename_char c = false /\ c <> "&"%char).
Proof.
  split; [apply clean_filename_kept |].
  pose proof (clean_filename_kept filename) as H.
  induction (clean_filename filename) as [| a s IH]; intros c Hc.
  - apply elem_of_nil in Hc. contradiction.
  - simpl in H. apply andb_true_iff in H as [Ha Hs].
    change (chars (String a s)) with (a :: chars s) in Hc.
    apply elem_of_cons in Hc as [-> | Hc]; [| apply IH; assumption].
    unfold kept_char in Ha. apply andb_true_iff in Ha as [H1 H2].
    apply negb_true_iff in H1, H2. split; [exact H1 |].
    intros ->. discriminate H2.
Qed.

Lemma substring_length (s : string) (m : nat) :
  String.length (String.substring 0 m s) = Nat.min m (String.length s).
Proof.
  revert m. induction s as [| c s IH]; intros [| m]; simpl; try reflexivity.
  rewrite IH. reflexivity.
Qed.

(** X2. A name that [clean_filename] returns has at most 200 characters. *)
Theorem clean_filename_length (filename : string) :
  (String.length (clean_filename filename) <= 200)%nat.
Proof.
  unfold clean_filename.
  destruct (Nat.ltb_spec 200 (String.length
              (strip (replace_ampersand (remove_chars invalid_filename_char filename)))))
    as [Hlong | Hshort].
  - rewrite substring_length. lia.
  - exact Hshort.
Qed.

Lemma chars_inj (s1 s2 : string) : chars s1 = chars s2 -> s1 = s2.
Proof.
  intros H. rewrite <- (String.string_of_list_ascii_of_string s1),
              <- (String.string_of_list_ascii_of_string s2).
  unfold chars in H. rewrite H. reflexivity.
Qed.

Lemma chars_rev_app (s1 s2 : string) :
  chars (String.rev_app s1 s2) = rev (chars s1) ++ chars s2.
Proof.
  revert s2. induction s1 as [| c s1 IH]; intros s2; [reflexivity |].
  cbn [String.rev_app]. rewrite IH. change (chars (String c s1)) with (c :: chars s1).
  change (chars (String c s2)) with (c :: chars s2).
  rewrite reverse_cons || (simpl; rewrite <- app_assoc; reflexivity).
Qed.

Lemma chars_rev (s : string) : chars (String.rev s) = rev (chars s).
Proof. unfold String.rev. rewrite chars_rev_app. apply app_nil_r. Qed.

Lemma rev_rev_string (s : string) : String.rev (String.rev s) = s.
Proof. apply chars_inj. rewrite !chars_rev. apply rev_involutive. Qed.

Lemma chars_lstrip (s : string) : chars (lstrip s) = drop_spaces (chars s).
Proof.
  induction s as [| c s IH]; [reflexivity |].
  change (chars (String c s)) with (c :: chars s). simpl.
  destruct (py_isspace c); [exact IH | reflexivity].
Qed.

Lemma chars_substring (s : string) (m : nat) :
  chars (String.substring 0 m s) = take m (chars s).
Proof.
  revert m. induction s as [| c s IH]; intros [| m]; try reflexivity.
  change (chars (String c s)) with (c :: chars s). simpl.
  change (String.list_ascii_of_string (String.substring 0 m s))
    with (chars (String.substring 0 m s)).
  rewrite IH. reflexivity.
Qed.

Lemma first_char_chars (s : string) : first_char s = head (chars s).
Proof. destruct s; reflexivity. Qed.

Lemma head_nonspace_spec (l : list ascii) :
  head_nonspace l <-> forall c, head l = Some c -> py_isspace c = false.
Proof.
  destruct l as [| a l]; simpl.
  - split; [intros _ c H; discriminate | tauto].
  - split; [intros H c [= <-]; exact H | intros H; apply H; reflexivity].
Qed.

Lemma drop_spaces_head (l : list ascii) : head_nonspace (drop_spaces l).
Proof.
  induction l as [| c l IH]; simpl; [exact I |].
  destruct (py_isspace c) eqn:E; [exact IH | exact E].
Qed.

Lemma drop_spaces_suffix (l : list ascii) : exists p, l = p ++ drop_spaces l.
Proof.
  induction l as [| c l [p IH]]; simpl; [exists []; reflexivity |].
  destruct (py_isspace c); [| exists []; reflexivity].
  exists (c :: p). simpl. rewrite <- IH. reflexivity.
Qed.

Lemma head_nonspace_prefix (a p : list ascii) :
  head_nonspace (a ++ p) -> head_nonspace a.
Proof. destruct a; simpl; tauto. Qed.

Lemma head_nonspace_take (n : nat) (l : list ascii) :
  head_nonspace l -> head_nonspace (take n l).
Proof. destruct l, n; simpl; tauto. Qed.

Lemma drop_spaces_id (l : list ascii) : head_nonspace l -> drop_spaces l = l.
Proof. destruct l as [| c l]; simpl; [reflexivity |]. intros ->. reflexivity. Qed.

(** Both ends of a stripped string are free of spaces. *)
Lemma strip_ends (s : string) :
  head_nonspace (chars (strip s)) /\ head_nonspace (rev (chars (strip s))).
Proof.
  unfold strip. rewrite chars_rev, chars_lstrip, chars_rev, chars_lstrip.
  set (u := drop_spaces (chars s)).
  rewrite rev_involutive.
  split; [| apply drop_spaces_head].
  destruct (drop_spaces_suffix (rev u)) as [p Hp].
  apply (head_nonspace_prefix _ (rev p)).
  rewrite <- rev_app_distr, <- Hp, rev_involutive. apply drop_spaces_head.
Qed.

Lemma strip_id (s : string) :
  head_nonspace (chars s) -> head_nonspace (rev (chars s)) -> strip s = s.
Proof.
  intros Hh Hl. unfold strip. apply chars_inj.
  rewrite chars_rev, chars_lstrip, chars_rev, chars_lstrip.
  rewrite (drop_spaces_id _ Hh), (drop_spaces_id _ Hl). apply rev_involutive.
Qed.

(** A name shorter than 200 characters was not cut. *)
Lemma clean_filename_short (filename : string) :
  (String.length (clean_filename filename) < 200)%nat ->
  clean_filename filename
  = strip (replace_ampersand (remove_chars invalid_filename_char filename)).
Proof.
  unfold clean_filename.
  destruct (Nat.ltb_spec 200 (String.length
              (strip (replace_ampersand (remove_chars invalid_filename_char filename)))))
    as [Hlong | Hshort]; [| reflexivity].
  rewrite substring_length. lia.
Qed.

(** X3. A name that [clean_filename] returns never starts with a white
    space character, and does not end with one when it is shorter than
    200 characters (a name cut at 200 characters may end with one). *)
Theorem clean_filename_stripped (filename : string) :
  (forall c, first_char (clean_filename filename) = Some c -> py_isspace c = false)
  /\ (forall c,
        (String.length (clean_filename filename) < 200)%nat ->
        last_char (clean_filename filename) = Some c ->
        py_isspace c = false).
Proof.
  split.
  - intros c. rewrite first_char_chars. revert c. apply head_nonspace_spec.
    unfold clean_filename.
    destruct (_ <? _)%nat; [rewrite chars_substring; apply head_nonspace_take |];
      apply strip_ends.
  - intros c Hshort. rewrite (clean_filename_short _ Hshort).
    unfold last_char. rewrite first_char_chars, chars_rev. revert c.
    apply head_nonspace_spec. apply strip_ends.
Qed.

(** Cutting at 200 characters can leave a space at the end. *)
Example clean_filename_cut_ends_with_space :
  last_char (clean_filename (String.string_of_list_ascii
                               (replicate 199 "a"%char ++ [" "; "b"]%char)))
  = Some " "%char.
Proof. vm_compute. reflexivity. Qed.

Lemma remove_chars_id (s : string) :
  string_all kept_char s = true -> remove_chars invalid_filename_char s = s.
Proof.
  induction s as [| c s IH]; simpl; [reflexivity |].
  intros H. apply andb_true_iff in H as [Hc Hs]. unfold kept_char in Hc.
  apply andb_true_iff in Hc as [Hc _]. apply negb_true_iff in Hc.
  rewrite Hc, (IH Hs). reflexivity.
Qed.

Lemma replace_ampersand_id (s : string) :
  string_all kept_char s = true -> replace_ampersand s = s.
Proof.
  induction s as [| c s IH]; simpl; [reflexivity |].
  intros H. apply andb_true_iff in H as [Hc Hs]. unfold kept_char in Hc.
  apply andb_true_iff in Hc as [_ Hc]. apply negb_true_iff in Hc.
  rewrite Hc, (IH Hs). reflexivity.
Qed.

(** X4. Cleaning a cleaned name that is shorter than 200 characters
    changes nothing. *)
Theorem clean_filename_idempotent (filename : string) :
  (String.length (clean_filename filename) < 200)%nat ->
  clean_filename (clean_filename filename) = clean_filename filename.
Proof.
  intros Hshort.
  pose proof (clean_filename_kept filename) as Hkept.
  assert (strip (clean_filename filename) = clean_filename filename) as Hstrip.
  { rewrite (clean_filename_short _ Hshort). apply strip_id; apply strip_ends. }
  set (r := clean_filename filename) in *.
  unfold clean_filename at 1.
  rewrite (remove_chars_id r Hkept), (replace_ampersand_id r Hkept), Hstrip.
  destruct (Nat.ltb_spec 200 (String.length r)); [lia | reflexivity].
Qed.

Lemma clean_filename_idempotent_witness :
  (String.length (clean_filename "  AC/DC & Friends: Live?  ") < 200)%nat
  /\ clean_filename "  AC/DC & Friends: Live?  " = "ACDC and Friends Live"
  /\ clean_filename (clean_filename "  AC/DC & Friends: Live?  ")
     = clean_filename "  AC/DC & Friends: Live?  ".
Proof.
  assert (String.length (clean_filename "  AC/DC & Friends: Live?  ") < 200)%nat
    as H by (vm_compute; lia).
  split; [exact H |]. split; [vm_compute; reflexivity |].
  exact (clean_filename_idempotent "  AC/DC & Friends: Live?  " H).
Defined.

(** ** [YouTubeAPI.download], case by case *)

Section DownloadFacts.

Variable extract_info : ydl_options -> pyval -> bool -> ydl_outcome.
Variable os_path_exists : string -> bool.
Variable os_path_join : string -> string -> string.
Variable path_div : string -> string -> string.
Variable self : YouTubeAPI.

Local Abbreviation download' :=
  (download extract_info os_path_exists os_path_join path_div self).
Local Abbreviation target := (target_path os_path_join path_div self).

Lemma download_unfold (url : pyval) (output_dir : option string) :
  download' url output_dir =
    match extract_info (download_opts os_path_join path_div self output_dir) url true with
    | YdlRaise msg => ([LogDownloadError url (DownloadError msg)], Ok None)
    | YdlReturn info =>
        if info_truthy info then
          match default ∅ (info_fields <$> info) !! "title" with
          | None => ([LogDownloadError url (KeyError "title")], Ok None)
          | Some (PyStr t) =>
              if os_path_exists (target output_dir (clean_filename t +:+ ".mp3"))
              then ([], Ok (Some (target output_dir (clean_filename t +:+ ".mp3"))))
              else ([], Ok None)
          | Some _ => ([LogDownloadError url TypeError], Ok None)
          end
        else ([], Ok None)
    end.
Proof.
  unfold download, download_opts, target_path, ydl_extract_info, info_title_filename,
    getitem.
  destruct (truthy_str output_dir);
    (destruct (extract_info _ url true) as [msg | info]; simpl; [reflexivity |];
     destruct (info_truthy info); simpl; [| reflexivity];
     destruct (_ !! "title") as [[| n | t] |]; simpl; try reflexivity;
     destruct (os_path_exists _); reflexivity).
Qed.

End DownloadFacts.

(** X5. [download] returns a path exactly when yt-dlp returned a non-empty
    info dictionary whose title is a string and the file named after the
    cleaned title, with the extension mp3, exists in the chosen directory
    (the given one, or the object's when none is given); the path returned
    is the path of that file. *)
Theorem download_returns_existing_file
    (extract_info : ydl_options -> pyval -> bool -> ydl_outcome)
    (os_path_exists : string -> bool)
    (os_path_join path_div : string -> string -> string)
    (self : YouTubeAPI) (url : pyval) (output_dir : option string) (path : string) :
  outcome (download extract_info os_path_exists os_path_join path_div self url output_dir)
  = Ok (Some path)
  <-> exists info title,
        extract_info (download_opts os_path_join path_div self output_dir) url true
        = YdlReturn (Some info)
        /\ info_truthy (Some info) = true
        /\ info_fields info !! "title" = Some (PyStr title)
        /\ path = target_path os_path_join path_div self output_dir
                    (clean_filename title +:+ ".mp3")
        /\ os_path_exists path = true.
Proof.
  rewrite download_unfold. unfold outcome. split.
  - intros H.
    destruct (extract_info _ url true) as [msg | [info |]]; lazy beta iota in H;
      try discriminate H.
    destruct (info_truthy (Some info)) eqn:Ht; lazy beta iota in H; [| discriminate H].
    change (default ∅ (info_fields <$> Some info)) with (info_fields info) in H.
    destruct (info_fields info !! "title") as [[| n | t] |] eqn:Etitle;
      lazy beta iota in H; try discriminate H.
    destruct (os_path_exists _) eqn:Ex; lazy beta iota in H; [| discriminate H].
    injection H as <-. exists info, t. repeat split; assumption.
  - intros (info & t & E & Ht & Etitle & -> & Ex).
    rewrite E, Ht. simpl. rewrite Etitle, Ex. reflexivity.
Qed.

(** X6. [download] turns every failure into [None]: an error raised by
    yt-dlp is printed with the url; so are a missing title and a title that
    is no string; an empty result of yt-dlp and a file that does not exist
    give [None] without a line. *)
Theorem download_failures
    (extract_info : ydl_options -> pyval -> bool -> ydl_outcome)
    (os_path_exists : string -> bool)
    (os_path_join path_div : string -> string -> string)
    (self : YouTubeAPI) (url : pyval) (output_dir : option string) :
  let opts := download_opts os_path_join path_div self output_dir in
  let download' := download extract_info os_path_exists os_path_join path_div self in
  (forall msg,
      extract_info opts url true = YdlRaise msg ->
      download' url output_dir = ([LogDownloadError url (DownloadError msg)], Ok None))
  /\ (forall info,
        extract_info opts url true = YdlReturn info ->
        info_truthy info = false ->
        download' url output_dir = ([], Ok None))
  /\ (forall info,
        extract_info opts url true = YdlReturn (Some info) ->
        info_truthy (Some info) = true ->
        info_fields info !! "title" = None ->
        download' url output_dir = ([LogDownloadError url (KeyError "title")], Ok None))
  /\ (forall info v,
        extract_info opts url true = YdlReturn (Some info) ->
        info_truthy (Some info) = true ->
        info_fields info !! "title" = Some v ->
        (forall t, v <> PyStr t) ->
        download' url output_dir = ([LogDownloadError url TypeError], Ok None))
  /\ (forall info t,
        extract_info opts url true = YdlReturn (Some info) ->
        info_truthy (Some info) = true ->
        info_fields info !! "title" = Some (PyStr t) ->
        os_path_exists (target_path os_path_join path_div self output_dir
                          (clean_filename t +:+ ".mp3")) = false ->
        download' url output_dir = ([], Ok None)).
Proof.
  intros opts download'. subst opts download'.
  repeat split.
  - intros msg E. rewrite download_unfold, E. reflexivity.
  - intros info E Ht. rewrite download_unfold, E, Ht. reflexivity.
  - intros info E Ht Etitle. rewrite download_unfold, E, Ht. simpl.
    rewrite Etitle. reflexivity.
  - intros info v E Ht Etitle Hv. rewrite download_unfold, E, Ht. simpl.
    rewrite Etitle. destruct v as [| n | t]; try reflexivity.
    exfalso. apply (Hv t). reflexivity.
  - intros info t E Ht Etitle Ex. rewrite download_unfold, E, Ht. simpl.
    rewrite Etitle, Ex. reflexivity.
Qed.

(** ** [YouTubeAPI.search_and_download] *)

Lemma download_some_exists extract_info os_path_exists os_path_join path_div
    (self : YouTubeAPI) (url : pyval) (output_dir : option string) (path : string) :
  outcome (download extract_info os_path_exists os_path_join path_div self url output_dir)
  = Ok (Some path) ->
  os_path_exists path = true.
Proof.
  rewrite download_unfold. unfold outcome. intros H.
  destruct (extract_info _ url true) as [msg | info]; lazy beta iota in H;
    try discriminate H.
  destruct (info_truthy info); lazy beta iota in H; [| discriminate H].
  destruct (_ !! "title") as [[| n | t] |]; lazy beta iota in H; try discriminate H.
  destruct (os_path_exists _) eqn:Ex; lazy beta iota in H; [| discriminate H].
  injection H as <-. exact Ex.
Qed.

Lemma slice_to_nonneg {A} (l : list A) (i : Z) :
  0 <= i -> slice_to l i = take (Z.to_nat i) l.
Proof. intros H. unfold slice_to. destruct (Z.leb_spec 0 i); [reflexivity | lia]. Qed.

Section SearchAndDownloadFacts.

Variable extract_info : ydl_options -> pyval -> bool -> ydl_outcome.
Variable os_path_exists : string -> bool.
Variable os_path_join : string -> string -> string.
Variable path_div : string -> string -> string.
Variable self : YouTubeAPI.

(** The loop over the records adds at most one path per record, and only
    paths of files that exist. *)
Lemma download_each_files (videos : list pydict) (acc : list string) :
  Forall has_url videos ->
  exists files,
    outcome (download_each extract_info os_path_exists os_path_join path_div
               self videos acc) = Ok files
    /\ (length files <= length acc + length videos)%nat
    /\ (Forall (fun p => os_path_exists p = true) acc ->
        Forall (fun p => os_path_exists p = true) files).
Proof.
  intros Hurl. revert acc.
  induction Hurl as [| video rest [url Hu] _ IH]; intros acc.
  - exists acc. split; [reflexivity |]. split; [simpl; lia | tauto].
  - cbn [download_each]. unfold getitem. rewrite Hu.
    rewrite (outcome_bind _ _ url) by reflexivity.
    destruct (download_returns extract_info os_path_exists os_path_join path_div
                self url None) as [r Hr].
    rewrite (outcome_bind _ _ r) by exact Hr.
    destruct (IH (if truthy_str r then acc ++ [default "" r] else acc))
      as (files & Hf & Hlen & Hex).
    exists files. split; [exact Hf |]. split.
    + destruct (truthy_str r); [rewrite length_app in Hlen |]; simpl in *; lia.
    + intros Hacc. apply Hex. destruct r as [p |]; simpl; [| exact Hacc].
      destruct (negb _); [| exact Hacc].
      apply Forall_app. split; [exact Hacc |]. constructor; [| constructor].
      eapply download_some_exists. exact Hr.
Qed.

End SearchAndDownloadFacts.

(** X7. For a limit that is not negative, [search_and_download] never
    raises and returns at most [limit] paths, each of a file that exists;
    the bound needs nothing of yt-dlp, because the records are cut with
    [videos[:limit]]. *)
Theorem search_and_download_bounded
    (extract_info : ydl_options -> pyval -> bool -> ydl_outcome)
    (os_path_exists : string -> bool)
    (os_path_join path_div : string -> string -> string)
    (self : YouTubeAPI) (query : string) (limit : Z) :
  0 <= limit ->
  exists files,
    outcome (search_and_download extract_info os_path_exists os_path_join path_div
               self query limit) = Ok files
    /\ Z.of_nat (length files) <= limit
    /\ Forall (fun p => os_path_exists p = true) files.
Proof.
  intros Hlimit. unfold search_and_download.
  destruct (search_returns extract_info self query limit 0) as [videos Hv].
  rewrite (outcome_bind _ _ videos) by exact Hv.
  pose proof (youtube_search_has_url extract_info os_path_exists os_path_join path_div
                self query limit 0 videos Hv) as Hurl.
  destruct videos as [| v rest].
  - exists []. split; [reflexivity |]. split; [simpl; lia | constructor].
  - rewrite slice_to_nonneg by exact Hlimit.
    destruct (download_each_files extract_info os_path_exists os_path_join path_div self
                (take (Z.to_nat limit) (v :: rest)) [])
      as (files & Hf & Hlen & Hex).
    { apply Forall_take. exact Hurl. }
    exists files. split; [exact Hf |]. split.
    + rewrite length_take in Hlen. simpl length in Hlen. lia.
    + apply Hex. constructor.
Qed.

Lemma search_and_download_bounded_witness :
  0 <= 2
  /\ outcome (search_and_download Demo.extract_info Demo.os_path_exists Demo.os_path_join
                Demo.path_div (YouTubeAPI_init "downloads") "rock hits" 2)
     = Ok ["downloads/httpsya.mp3"]
  /\ exists files,
       outcome (search_and_download Demo.extract_info Demo.os_path_exists
                  Demo.os_path_join Demo.path_div (YouTubeAPI_init "downloads")
                  "rock hits" 2) = Ok files
       /\ Z.of_nat (length files) <= 2
       /\ Forall (fun p => Demo.os_path_exists p = true) files.
Proof.
  split; [lia |]. split; [vm_compute; reflexivity |].
  exact (search_and_download_bounded Demo.extract_info Demo.os_path_exists
           Demo.os_path_join Demo.path_div (YouTubeAPI_init "downloads") "rock hits" 2
           ltac:(lia)).
Defined.

(** ** [download_track] *)

(** X8. [download_track] lets no exception escape, whatever the object it
    is given does: when [youtube.search] raises, when [youtube.download]
    raises, or when the first record has no key [url], it prints the error
    with the query and returns [False]. *)
Theorem download_track_contains_errors
    (youtube : youtube_obj) (query output_dir : string) :
  match snd (download_track youtube query output_dir) with
  | Raise _ => False
  | _ => True
  end
  /\ (forall e,
        outcome (yt_search youtube query 1 0) = Raise e ->
        download_track youtube query output_dir
        = (map FromYoutube (trace (yt_search youtube query 1 0))
             ++ [LogTrackError query e],
           Ok false))
  /\ (forall video rest,
        outcome (yt_search youtube query 1 0) = Ok (video :: rest) ->
        video !! "url" = None ->
        download_track youtube query output_dir
        = (map FromYoutube (trace (yt_search youtube query 1 0))
             ++ [LogTrackError query (KeyError "url")],
           Ok false))
  /\ (forall video rest url e,
        outcome (yt_search youtube query 1 0) = Ok (video :: rest) ->
        video !! "url" = Some url ->
        outcome (yt_download youtube url (Some output_dir)) = Raise e ->
        download_track youtube query output_dir
        = ((map FromYoutube (trace (yt_search youtube query 1 0))
              ++ map FromYoutube (trace (yt_download youtube url (Some output_dir))))
             ++ [LogTrackError query e],
           Ok false)).
Proof.
  unfold download_track, download_track_body.
  split; [| split; [| split]].
  - destruct (outcome (yt_search youtube query 1 0)) as [[| video rest] | e |];
      simpl; try exact I.
    destruct (video !! "url") as [url |]; simpl; [| exact I].
    destruct (outcome (yt_download youtube url (Some output_dir))) as [r | e |];
      simpl; try exact I.
    destruct (truthy_str r); simpl; [| exact I].
    destruct (video !! "title"); exact I.
  - intros e ->. reflexivity.
  - intros video rest -> ->. reflexivity.
  - intros video rest url e -> -> ->. reflexivity.
Qed.

(** X9. [download_track] returns [True] exactly when the search returned
    at least one record, the first record has the keys [url] and [title],
    and the download of its url returned a path; an empty page gives
    [False] with the line "No results found". *)
Theorem download_track_success
    (youtube : youtube_obj) (query output_dir : string) :
  (snd (download_track youtube query output_dir) = Ok true
   <-> exists video rest url title path,
         outcome (yt_search youtube query 1 0) = Ok (video :: rest)
         /\ video !! "url" = Some url
         /\ video !! "title" = Some title
         /\ outcome (yt_download youtube url (Some output_dir)) = Ok (Some path)
         /\ path <> "")
  /\ (outcome (yt_search youtube query 1 0) = Ok [] ->
      download_track youtube query output_dir
      = (map FromYoutube (trace (yt_search youtube query 1 0)) ++ [LogNoResults query],
         Ok false)).
Proof.
  unfold download_track, download_track_body. split.
  - split.
    + intros H.
      destruct (outcome (yt_search youtube query 1 0)) as [[| video rest] | e |];
        lazy beta iota in H; try discriminate H.
      destruct (video !! "url") as [url |] eqn:Eu; lazy beta iota in H;
        [| discriminate H].
      destruct (outcome (yt_download youtube url (Some output_dir))) as [r | e |] eqn:Ed;
        lazy beta iota zeta in H; try discriminate H.
      destruct r as [path |]; [| discriminate H].
      destruct (truthy_str (Some path)) eqn:Et; lazy beta iota in H; [| discriminate H].
      destruct (video !! "title") as [title |] eqn:Etitle; lazy beta iota in H;
        [| discriminate H].
      exists video, rest, url, title, path. repeat split; try assumption; try reflexivity.
      intros ->. discriminate Et.
    + intros (video & rest & url & title & path & -> & -> & Etitle & -> & Hne).
      lazy beta iota zeta.
      assert (truthy_str (Some path) = true) as ->.
      { simpl. destruct (String.eqb_spec path ""); [contradiction | reflexivity]. }
      rewrite Etitle. reflexivity.
  - intros ->. reflexivity.
Qed.

(** ** More on the paginator *)

(** X10. Whatever the object does, a pass through the loop body that does
    not end the loop adds one to [batch] and never lowers [downloaded]: the
    counter grows by at most the number of records in the page. *)
Theorem loop_pass_monotone
    (youtube : youtube_obj) (output_dir term : string) (tracks_per_term : Z)
    (st st' : loop_state) :
  outcome (loop_body youtube output_dir term tracks_per_term st) = Ok (Some st') ->
  batch st' = batch st + 1
  /\ exists results,
       outcome (yt_search youtube term (current_batch tracks_per_term st)
                  (batch st * BATCH_SIZE)) = Ok results
       /\ results <> []
       /\ downloaded st <= downloaded st' <= downloaded st + Z.of_nat (length results).
Proof.
  intros H.
  apply loop_body_continue in H as (results & futures & Hs & Hne & Hf & Hw & Hb).
  split; [exact Hb |]. exists results. split; [exact Hs |]. split; [exact Hne |].
  apply submit_all_length in Hf. apply wait_all_bounds in Hw. lia.
Qed.

Lemma loop_pass_monotone_witness :
  outcome (loop_body Demo.youtube "F:/datasets/rock" "rock hits" 3
             {| downloaded := 0; batch := 0 |})
  = Ok (Some {| downloaded := 1; batch := 1 |})
  /\ 1 = 0 + 1
  /\ exists results,
       outcome (yt_search Demo.youtube "rock hits"
                  (current_batch 3 {| downloaded := 0; batch := 0 |})
                  (batch {| downloaded := 0; batch := 0 |} * BATCH_SIZE)) = Ok results
       /\ results <> []
       /\ 0 <= 1 <= 0 + Z.of_nat (length results).
Proof.
  assert (outcome (loop_body Demo.youtube "F:/datasets/rock" "rock hits" 3
                     {| downloaded := 0; batch := 0 |})
          = Ok (Some {| downloaded := 1; batch := 1 |})) as H
    by (vm_compute; reflexivity).
  split; [exact H |].
  exact (loop_pass_monotone Demo.youtube "F:/datasets/rock" "rock hits" 3
           {| downloaded := 0; batch := 0 |} {| downloaded := 1; batch := 1 |} H).
Defined.

Section RequestSizes.

Variable youtube : youtube_obj.
Variable output_dir : string.
Variable term : string.
Variable tracks_per_term : Z.
Hypothesis Hquiet : makes_no_call youtube.

Lemma while_loop_request_sizes (fuel : nat) (st : loop_state) :
  0 <= downloaded st ->
  Forall (fun '(_, limit, _) => 1 <= limit <= BATCH_SIZE /\ limit <= tracks_per_term)
    (search_calls (trace (while_loop youtube output_dir term tracks_per_term fuel st))).
Proof.
  revert st. induction fuel as [| fuel IH]; intros st Hd.
  - simpl. destruct (downloaded st <? tracks_per_term); constructor.
  - destruct (Z.lt_ge_cases (downloaded st) tracks_per_term) as [Hlt | Hge].
    + rewrite while_loop_step by exact Hlt.
      rewrite search_calls_bind, (loop_body_search_calls _ _ _ _ Hquiet).
      constructor.
      * unfold current_batch, remaining, BATCH_SIZE. lia.
      * destruct (outcome (loop_body youtube output_dir term tracks_per_term st))
          as [[st' |] | e |] eqn:Hb; try constructor.
        apply IH.
        apply loop_body_continue in Hb as (_ & futures & _ & _ & _ & Hw & _).
        apply wait_all_bounds in Hw. lia.
    + rewrite while_loop_done by lia. constructor.
Qed.

End RequestSizes.

(** X11. Every search of the paginator asks for at least one record, for
    at most [BATCH_SIZE] records and for no more than the quota of the
    term. *)
Theorem request_size_bounds
    (extract_info : ydl_options -> pyval -> bool -> ydl_outcome)
    (os_path_exists : string -> bool)
    (os_path_join path_div : string -> string -> string)
    (self : YouTubeAPI) (output_dir term : string) (tracks_per_term : Z) (fuel : nat) :
  Forall (fun '(_, limit, _) => 1 <= limit <= BATCH_SIZE /\ limit <= tracks_per_term)
    (search_calls
       (trace (process_term
                 (youtube_of extract_info os_path_exists os_path_join path_div self)
                 output_dir term tracks_per_term fuel))).
Proof.
  unfold process_term. rewrite search_calls_bind. simpl.
  apply while_loop_request_sizes; [apply youtube_makes_no_call | simpl; lia].
Qed.

(** ** The loop ends when the source has finitely many results *)

Lemma search_beyond_end extract_info (self : YouTubeAPI) query limit offset (n : nat) :
  at_most_results extract_info n ->
  Z.of_nat n <= offset ->
  outcome (search extract_info self query limit offset) = Ok [].
Proof.
  intros Hmost Hoff.
  pose proof (search_cases extract_info self query limit offset) as H.
  destruct (extract_info _ _ _) as [msg | [info |]] eqn:E;
    [ | destruct (info_entries info) as [es |] eqn:Ees | ]; rewrite H; try reflexivity.
  pose proof (Hmost _ _ _ _ _ E Ees) as Hlen.
  rewrite slice_from_nonneg by lia. rewrite drop_ge by lia. reflexivity.
Qed.

Lemma for_each_returns {A} (body : A -> M unit) (l : list A) :
  Forall (fun x => outcome (body x) = Ok tt) l -> outcome (for_each body l) = Ok tt.
Proof.
  induction 1 as [| x l Hx _ IH]; [reflexivity |].
  simpl. rewrite (outcome_bind _ _ tt Hx). exact IH.
Qed.

Section Termination.

Variable extract_info : ydl_options -> pyval -> bool -> ydl_outcome.
Variable os_path_exists : string -> bool.
Variable os_path_join : string -> string -> string.
Variable path_div : string -> string -> string.
Variable self : YouTubeAPI.
Variable n : nat.
Hypothesis Hmost : at_most_results extract_info n.

Local Abbreviation youtube :=
  (youtube_of extract_info os_path_exists os_path_join path_div self).

Lemma youtube_while_loop_returns output_dir term tracks_per_term fuel st :
  0 <= batch st ->
  Z.of_nat n <= (batch st + Z.of_nat fuel) * BATCH_SIZE ->
  exists st', outcome (while_loop youtube output_dir term tracks_per_term (S fuel) st)
              = Ok st'.
Proof.
  revert st. induction fuel as [| fuel IH]; intros st Hb Hn.
  - destruct (Z.lt_ge_cases (downloaded st) tracks_per_term) as [Hlt | Hge].
    + rewrite while_loop_step by exact Hlt.
      rewrite loop_body_break.
      * exists st. reflexivity.
      * simpl. eapply search_beyond_end; [exact Hmost | lia].
    + rewrite while_loop_done by lia. exists st. reflexivity.
  - destruct (Z.lt_ge_cases (downloaded st) tracks_per_term) as [Hlt | Hge].
    + rewrite while_loop_step by exact Hlt.
      destruct (youtube_loop_body_returns extract_info os_path_exists os_path_join
                  path_div self output_dir term tracks_per_term st) as [r Hr].
      rewrite (outcome_bind _ _ r Hr).
      destruct r as [st' |]; [| exists st; reflexivity].
      apply loop_body_continue in Hr as (_ & _ & _ & _ & _ & _ & Hbatch).
      apply IH; lia.
    + rewrite while_loop_done by lia. exists st. reflexivity.
Qed.

Lemma youtube_genre_returns fuel genre (search_terms : list string) count :
  Z.of_nat n <= Z.of_nat fuel * BATCH_SIZE ->
  search_terms <> [] ->
  outcome (download_genre_tracks path_div (S fuel) youtube genre search_terms count)
  = Ok tt.
Proof.
  intros Hn Hterms. unfold download_genre_tracks.
  rewrite floordiv_nonzero by (apply length_nonzero; exact Hterms).
  rewrite (outcome_bind _ _ _ (outcome_ret _)).
  rewrite (outcome_bind _ _ tt) by reflexivity.
  apply for_each_returns. apply Forall_forall. intros term _.
  destruct (youtube_while_loop_returns (path_div DATASETS_DIR genre) term
              (count / Z.of_nat (length search_terms)) fuel
              {| downloaded := 0; batch := 0 |}) as [st Hst]; [simpl; lia.. |].
  unfold process_term.
  erewrite outcome_bind; [reflexivity |].
  rewrite (outcome_bind _ _ tt) by reflexivity. exact Hst.
Qed.

End Termination.

(** X12. When yt-dlp never returns more than [n] entries, the loop of a
    term ends after at most [n / BATCH_SIZE] (rounded up) pages and one
    more search, which finds nothing: with that many passes allowed,
    [process_term] returns, and [main] completes every catalog whose
    collections all have a search term. *)
Theorem run_completes
    (extract_info : ydl_options -> pyval -> bool -> ydl_outcome)
    (os_path_exists : string -> bool)
    (os_path_join path_div : string -> string -> string)
    (n fuel : nat) :
  at_most_results extract_info n ->
  Z.of_nat n <= Z.of_nat fuel * BATCH_SIZE ->
  (forall self output_dir term tracks_per_term,
      exists st,
        outcome (process_term
                   (youtube_of extract_info os_path_exists os_path_join path_div self)
                   output_dir term tracks_per_term (S fuel)) = Ok st)
  /\ (forall genres,
        Forall (fun g : string * genre_config => search_terms g.2 <> []) genres ->
        outcome (main extract_info os_path_exists os_path_join path_div (S fuel) genres)
        = Ok tt).
Proof.
  intros Hmost Hn. split.
  - intros self output_dir term q.
    destruct (youtube_while_loop_returns extract_info os_path_exists os_path_join
                path_div self n Hmost output_dir term q fuel
                {| downloaded := 0; batch := 0 |}) as [st Hst]; [simpl; lia.. |].
    exists st. unfold process_term.
    rewrite (outcome_bind _ _ tt) by reflexivity. exact Hst.
  - intros genres Hterms. unfold main, run_genres.
    apply for_each_returns. eapply Forall_impl; [exact Hterms |].
    intros [genre config] H. apply (youtube_genre_returns _ _ _ _ _ n Hmost); assumption.
Qed.

Lemma demo_at_most_results : at_most_results Demo.extract_info 5.
Proof.
  intros opts url dl info es H Hes. unfold Demo.extract_info in H.
  destruct dl.
  - destruct url as [| |u]; try discriminate.
    destruct (decide (u = "https://y/b")) as [-> | Hne]; [discriminate |].
    assert (info = {| info_fields := {[ "title" := PyStr u ]}; info_entries := None |}) as ->.
    { revert H. repeat (case_match; try discriminate); congruence. }
    discriminate.
  - destruct (playlistend opts) as [k |]; [| discriminate].
    injection H as <-. simpl in Hes. injection Hes as <-.
    rewrite length_take.
    assert (length (Demo.found url) <= 5)%nat; [| lia].
    unfold Demo.found. repeat case_match; simpl; lia.
Qed.

Lemma run_completes_witness :
  at_most_results Demo.extract_info 5
  /\ Z.of_nat 5 <= Z.of_nat 1 * BATCH_SIZE
  /\ outcome (main Demo.extract_info Demo.os_path_exists Demo.os_path_join Demo.path_div
                2 Demo.genres) = Ok tt.
Proof.
  split; [exact demo_at_most_results |]. split; [unfold BATCH_SIZE; lia |].
  apply (proj2 (run_completes Demo.extract_info Demo.os_path_exists Demo.os_path_join
                  Demo.path_div 5 1 demo_at_most_results
                  ltac:(unfold BATCH_SIZE; lia))).
  repeat constructor. simpl. discriminate.
Defined.

(** ** A target smaller than the number of terms *)

Lemma process_term_no_quota youtube output_dir term tracks_per_term fuel :
  tracks_per_term <= 0 ->
  process_term youtube output_dir term tracks_per_term fuel
  = ([LogTerm term], Ok {| downloaded := 0; batch := 0 |}).
Proof.
  intros Hq. unfold process_term. rewrite while_loop_done by (simpl; lia). reflexivity.
Qed.

(** X13. When the target of a collection is smaller than its number of
    search terms, the quota of every term is zero (or negative):
    [download_genre_tracks] prints its lines and makes no search and no
    download at all. *)
Theorem small_target_downloads_nothing
    (path_div : string -> string -> string) (fuel : nat) (youtube : youtube_obj)
    (genre : string) (search_terms : list string) (count : Z) :
  search_terms <> [] ->
  count < Z.of_nat (length search_terms) ->
  download_genre_tracks path_div fuel youtube genre search_terms count
  = (LogGenre count genre :: map LogTerm search_terms, Ok tt).
Proof.
  intros Hterms Hcount. unfold download_genre_tracks.
  rewrite floordiv_nonzero by (apply length_nonzero; exact Hterms).
  assert (count / Z.of_nat (length search_terms) <= 0) as Hq.
  { pose proof (length_nonzero search_terms Hterms).
    assert (count / Z.of_nat (length search_terms) < 1); [| lia].
    apply Z.div_lt_upper_bound; lia. }
  set (q := count / Z.of_nat (length search_terms)) in *.
  assert (forall l : list string,
            for_each (fun term =>
                        process_term youtube (path_div DATASETS_DIR genre) term q fuel ;;
                        ret tt) l
            = (map LogTerm l, Ok tt)) as Hall.
  { induction l as [| term l IH]; [reflexivity |].
    simpl. rewrite IH, process_term_no_quota by exact Hq. reflexivity. }
  simpl. rewrite Hall. reflexivity.
Qed.

Lemma small_target_downloads_nothing_witness :
  ["a"; "b"; "c"] <> []
  /\ 2 < Z.of_nat (length ["a"; "b"; "c"])
  /\ download_genre_tracks Demo.path_div 10 Demo.youtube "rock" ["a"; "b"; "c"] 2
     = (LogGenre 2 "rock" :: map LogTerm ["a"; "b"; "c"], Ok tt).
Proof.
  split; [discriminate |]. split; [simpl; lia |].
  exact (small_target_downloads_nothing Demo.path_div 10 Demo.youtube "rock"
           ["a"; "b"; "c"] 2 ltac:(discriminate) ltac:(simpl; lia)).
Defined.

(** ** What the events of a run have in common *)

Lemma trace_bind_Forall {A B} (P : event -> Prop) (m : M A) (k : A -> M B) :
  Forall P (trace m) ->
  (forall a, outcome m = Ok a -> Forall P (trace (k a))) ->
  Forall P (trace (bind m k)).
Proof.
  intros Hm Hk. rewrite bind_unfold.
  destruct (outcome m) as [a | e |] eqn:E; simpl; try exact Hm.
  apply Forall_app. split; [exact Hm | apply Hk; reflexivity].
Qed.

Lemma for_each_Forall {A} (P : event -> Prop) (body : A -> M unit) (l : list A) :
  (forall x, x ∈ l -> Forall P (trace (body x))) ->
  Forall P (trace (for_each body l)).
Proof.
  induction l as [| x l IH]; intros H; [constructor |].
  simpl. apply trace_bind_Forall.
  - apply H. left.
  - intros _ _. apply IH. intros y Hy. apply H. right. exact Hy.
Qed.

Section TraceInvariant.

Variable P : event -> Prop.
Variable youtube : youtube_obj.
Variable output_dir : string.
Variable term : string.
Variable tracks_per_term : Z.

Hypothesis Hsearch : forall t limit offset, Forall P (trace (yt_search youtube t limit offset)).
Hypothesis Hdownload : forall url dir, Forall P (trace (yt_download youtube url dir)).
Hypothesis Hbatch : forall number size, P (LogBatch number size).
Hypothesis Hcall : forall limit offset, P (CallSearch term limit offset).
Hypothesis Hnomore : P LogNoMore.
Hypothesis Hprogress : forall d, P (LogProgress d tracks_per_term term).
Hypothesis Hsubmit : forall url, P (CallDownload url (Some output_dir)).
Hypothesis Hterm : P (LogTerm term).

Lemma submit_all_Forall (results : list pydict) :
  Forall P (trace (submit_all youtube output_dir results)).
Proof.
  induction results as [| video rest IH]; [constructor |].
  cbn [submit_all]. apply trace_bind_Forall.
  - unfold getitem. destruct (video !! "url"); constructor.
  - intros url _. apply trace_bind_Forall; [repeat constructor; apply Hsubmit |].
    intros _ _. apply trace_bind_Forall; [apply Hdownload |].
    intros _ _. apply trace_bind_Forall; [exact IH | intros; constructor].
Qed.

Lemma loop_body_Forall (st : loop_state) :
  Forall P (trace (loop_body youtube output_dir term tracks_per_term st)).
Proof.
  rewrite loop_body_unfold.
  apply trace_bind_Forall; [repeat constructor; apply Hbatch |]. intros _ _.
  apply trace_bind_Forall; [repeat constructor; apply Hcall |]. intros _ _.
  apply trace_bind_Forall; [apply Hsearch |]. intros [| v rest] _.
  - apply trace_bind_Forall; [repeat constructor; exact Hnomore | intros; constructor].
  - apply trace_bind_Forall.
    + unfold dispatch. apply trace_bind_Forall; [apply submit_all_Forall |].
      intros futures _. rewrite wait_all_trace. constructor.
    + intros d _. apply trace_bind_Forall; [repeat constructor; apply Hprogress |].
      intros; constructor.
Qed.

Lemma process_term_Forall (fuel : nat) :
  Forall P (trace (process_term youtube output_dir term tracks_per_term fuel)).
Proof.
  unfold process_term. apply trace_bind_Forall; [repeat constructor; exact Hterm |].
  intros _ _. generalize {| downloaded := 0; batch := 0 |}.
  induction fuel as [| fuel IH]; intros st.
  - simpl. destruct (downloaded st <? tracks_per_term); constructor.
  - cbn [while_loop]. destruct (downloaded st <? tracks_per_term); [| constructor].
    apply trace_bind_Forall; [apply loop_body_Forall |].
    intros [st' |] _; [apply IH | constructor].
Qed.

End TraceInvariant.

(** The lines that [YouTubeAPI] prints are error lines. *)
Lemma youtube_trace_Forall (P : event -> Prop)
    extract_info os_path_exists os_path_join path_div (self : YouTubeAPI) :
  (forall e, P (LogSearchError e)) ->
  (forall url e, P (LogDownloadError url e)) ->
  (forall t limit offset,
      Forall P (trace (search extract_info self t limit offset)))
  /\ (forall url dir,
        Forall P (trace (download extract_info os_path_exists os_path_join path_div
                           self url dir))).
Proof.
  intros Hs Hd. split.
  - intros t limit offset.
    pose proof (search_cases extract_info self t limit offset) as H.
    destruct (extract_info _ _ _) as [msg | [info |]];
      [ | destruct (info_entries info) | ]; rewrite H; repeat constructor. apply Hs.
  - intros url dir. rewrite download_unfold.
    destruct (extract_info _ url true) as [msg | info]; [repeat constructor; apply Hd |].
    destruct (info_truthy info); [| constructor].
    destruct (_ !! "title") as [[| k | t] |]; try (repeat constructor; apply Hd).
    destruct (os_path_exists _); constructor.
Qed.

Lemma download_dirs_app (t1 t2 : list event) :
  download_dirs (t1 ++ t2) = download_dirs t1 ++ download_dirs t2.
Proof.
  induction t1 as [| ev t1 IH]; [reflexivity |].
  destruct ev; simpl; rewrite IH; reflexivity.
Qed.

Lemma download_dirs_Forall (dir : option string) (t : list event) :
  Forall (fun ev => Forall (eq dir) (download_dirs [ev])) t ->
  Forall (eq dir) (download_dirs t).
Proof.
  induction 1 as [| ev t Hev _ IH]; [constructor |].
  change (ev :: t) with ([ev] ++ t). rewrite download_dirs_app.
  apply Forall_app. split; assumption.
Qed.

(** X14. Every download that [download_genre_tracks] submits for a
    collection is given the directory of that collection,
    [DATASETS_DIR / genre]. *)
Theorem downloads_go_to_genre_directory
    (extract_info : ydl_options -> pyval -> bool -> ydl_outcome)
    (os_path_exists : string -> bool)
    (os_path_join path_div : string -> string -> string)
    (self : YouTubeAPI) (fuel : nat) (genre : string)
    (search_terms : list string) (count : Z) :
  Forall (eq (Some (path_div DATASETS_DIR genre)))
    (download_dirs
       (trace (download_genre_tracks path_div fuel
                 (youtube_of extract_info os_path_exists os_path_join path_div self)
                 genre search_terms count))).
Proof.
  apply download_dirs_Forall. unfold download_genre_tracks.
  apply trace_bind_Forall.
  - unfold floordiv. destruct (_ =? 0); constructor.
  - intros q _. apply trace_bind_Forall; [repeat constructor |]. intros _ _.
    apply for_each_Forall. intros term _.
    apply trace_bind_Forall; [| intros; constructor].
    destruct (youtube_trace_Forall
                (fun ev => Forall (eq (Some (path_div DATASETS_DIR genre)))
                             (download_dirs [ev]))
                extract_info os_path_exists os_path_join path_div self) as [Hs Hd];
      [intros; constructor.. |].
    apply process_term_Forall;
      [ exact Hs | exact Hd
      | intros; simpl; constructor | intros; simpl; constructor
      | simpl; constructor | intros; simpl; constructor
      | intros; simpl; constructor; [reflexivity | constructor]
      | simpl; constructor ].
Qed.

Lemma genres_started_app (t1 t2 : list event) :
  genres_started (t1 ++ t2) = genres_started t1 ++ genres_started t2.
Proof.
  induction t1 as [| ev t1 IH]; [reflexivity |].
  destruct ev; simpl; rewrite IH; reflexivity.
Qed.

Lemma genres_started_none (t : list event) :
  Forall (fun ev => genres_started [ev] = []) t -> genres_started t = [].
Proof.
  induction 1 as [| ev t Hev _ IH]; [reflexivity |].
  change (ev :: t) with ([ev] ++ t). rewrite genres_started_app, Hev, IH. reflexivity.
Qed.

Section GenreOrder.

Variable extract_info : ydl_options -> pyval -> bool -> ydl_outcome.
Variable os_path_exists : string -> bool.
Variable os_path_join : string -> string -> string.
Variable path_div : string -> string -> string.
Variable self : YouTubeAPI.

Local Abbreviation youtube :=
  (youtube_of extract_info os_path_exists os_path_join path_div self).

(** A collection prints its first line once, and only when its quota could
    be computed. *)
Lemma genre_started_once fuel genre (search_terms : list string) count :
  genres_started (trace (download_genre_tracks path_div fuel youtube genre
                           search_terms count))
  = if decide (search_terms = []) then [] else [genre].
Proof.
  unfold download_genre_tracks. destruct (decide (search_terms = [])) as [-> | Hne].
  - reflexivity.
  - rewrite floordiv_nonzero by (apply length_nonzero; exact Hne).
    rewrite bind_unfold. simpl outcome. cbv beta iota.
    rewrite bind_unfold. simpl outcome. cbv beta iota.
    cbn [trace fst ret log app genres_started].
    f_equal. apply genres_started_none. apply for_each_Forall. intros term _.
    apply trace_bind_Forall; [| intros; constructor].
    destruct (youtube_trace_Forall (fun ev => genres_started [ev] = [])
                extract_info os_path_exists os_path_join path_div self) as [Hs Hd];
      [reflexivity.. |].
    apply process_term_Forall;
      [ exact Hs | exact Hd | intros; reflexivity.. ].
Qed.

End GenreOrder.

(** X15. [main] starts the collections in the order of the catalog, each
    at most once: the collections whose first line was printed are a
    prefix of the catalog, and the whole catalog when the run completes. *)
Theorem genres_in_catalog_order
    (extract_info : ydl_options -> pyval -> bool -> ydl_outcome)
    (os_path_exists : string -> bool)
    (os_path_join path_div : string -> string -> string)
    (fuel : nat) (genres : list (string * genre_config)) :
  genres_started (trace (main extract_info os_path_exists os_path_join path_div
                           fuel genres))
  `prefix_of` map fst genres
  /\ (outcome (main extract_info os_path_exists os_path_join path_div fuel genres)
      = Ok tt ->
      genres_started (trace (main extract_info os_path_exists os_path_join path_div
                               fuel genres))
      = map fst genres).
Proof.
  unfold main, run_genres.
  induction genres as [| [genre config] rest [IHp IHe]].
  - split; [apply prefix_nil | reflexivity].
  - cbn [for_each map fst]. rewrite bind_unfold.
    pose proof (genre_started_once extract_info os_path_exists os_path_join path_div
                  (YouTubeAPI_init "downloads") fuel genre (search_terms config)
                  (count config)) as Hone.
    destruct (outcome (download_genre_tracks _ _ _ genre _ _)) as [[] | e |] eqn:Hout;
      cbn [trace outcome fst snd].
    + assert (search_terms config <> []) as Hne.
      { intros Hnil. unfold download_genre_tracks in Hout. rewrite Hnil in Hout.
        discriminate Hout. }
      destruct (decide (search_terms config = [])); [contradiction |].
      rewrite genres_started_app, Hone. split.
      * apply prefix_cons. exact IHp.
      * intros Hok. simpl. f_equal. apply IHe. exact Hok.
    + split; [| discriminate]. rewrite Hone.
      destruct (decide _); [apply prefix_nil | apply prefix_cons, prefix_nil].
    + split; [| discriminate]. rewrite Hone.
      destruct (decide _); [apply prefix_nil | apply prefix_cons, prefix_nil].
Qed.

(** The small catalog in the small world. *)
Example demo_genres_started :
  genres_started (trace (main Demo.extract_info Demo.os_path_exists Demo.os_path_join
                           Demo.path_div 2
                           (Demo.genres
                              ++ [("jazz", {| search_terms := ["lost"]; count := 1 |})])))
  = ["rock"; "jazz"]
  /\ download_dirs (trace (main Demo.extract_info Demo.os_path_exists Demo.os_path_join
                             Demo.path_div 2
                             (Demo.genres
                                ++ [("jazz", {| search_terms := ["lost"]; count := 1 |})])))
     = [Some "F:/datasets/rock"; Some "F:/datasets/rock"; Some "F:/datasets/jazz"].
Proof. split; vm_compute; reflexivity. Qed.

(** [download_track] on an object whose search raises. *)
Example demo_download_track :
  download_track Demo.broken "b" "F:/datasets/rock"
  = ([LogTrackError "b" (RuntimeError "connection lost")], Ok false)
  /\ download_track Demo.youtube "rock hits" "F:/datasets/rock"
     = ([LogDownloaded (PyStr "a")], Ok true).
Proof. split; vm_compute; reflexivity. Qed.

(** ** How the loop of a term ends *)

Lemma loop_body_break_inv youtube output_dir term tracks_per_term st :
  outcome (loop_body youtube output_dir term tracks_per_term st) = Ok None ->
  outcome (yt_search youtube term (current_batch tracks_per_term st)
             (batch st * BATCH_SIZE)) = Ok [].
Proof.
  rewrite loop_body_unfold. intros H.
  apply bind_Ok_inv in H as (? & _ & H).
  apply bind_Ok_inv in H as (? & _ & H).
  apply bind_Ok_inv in H as (results & Hs & H).
  destruct results as [| v rest]; [exact Hs |].
  apply bind_Ok_inv in H as (? & _ & H).
  apply bind_Ok_inv in H as (? & _ & H). discriminate H.
Qed.

(** X16. Whatever the object does, when the loop of a term ends, either
    the quota is met or the search just made, for the request size and at
    the offset of the final state, returned no record: a term ends under
    its quota only when a page came back empty. *)
Theorem term_ends_met_or_exhausted
    (youtube : youtube_obj) (output_dir term : string) (tracks_per_term : Z)
    (fuel : nat) (st : loop_state) :
  outcome (process_term youtube output_dir term tracks_per_term fuel) = Ok st ->
  tracks_per_term <= downloaded st
  \/ (downloaded st < tracks_per_term
      /\ outcome (yt_search youtube term (current_batch tracks_per_term st)
                    (batch st * BATCH_SIZE)) = Ok []).
Proof.
  unfold process_term. intros H.
  apply bind_Ok_inv in H as (? & _ & H).
  revert H. generalize {| downloaded := 0; batch := 0 |}.
  induction fuel as [| fuel IH]; intros st0 H.
  - simpl in H. destruct (Z.ltb_spec (downloaded st0) tracks_per_term);
      [discriminate H |]. injection H as <-. left. lia.
  - destruct (Z.lt_ge_cases (downloaded st0) tracks_per_term) as [Hlt | Hge].
    + rewrite while_loop_step in H by exact Hlt.
      apply bind_Ok_inv in H as ([st1 |] & Hb & H).
      * apply (IH st1). exact H.
      * injection H as <-. right. split; [exact Hlt |].
        apply loop_body_break_inv in Hb. exact Hb.
    + rewrite while_loop_done in H by lia. injection H as <-. left. lia.
Qed.

Lemma term_ends_met_or_exhausted_witness :
  outcome (process_term Demo.youtube "F:/datasets/rock" "rock hits" 3 10)
  = Ok {| downloaded := 1; batch := 1 |}
  /\ (3 <= 1
      \/ (1 < 3 /\ outcome (yt_search Demo.youtube "rock hits" 2 50) = Ok [])).
Proof.
  assert (outcome (process_term Demo.youtube "F:/datasets/rock" "rock hits" 3 10)
          = Ok {| downloaded := 1; batch := 1 |}) as H by (vm_compute; reflexivity).
  split; [exact H |].
  exact (term_ends_met_or_exhausted Demo.youtube "F:/datasets/rock" "rock hits" 3 10
           {| downloaded := 1; batch := 1 |} H).
Defined.
